(** * Entropy-generation network driver: trajectory helper, RHS evaluator
      and adaptive stepping loop

    A shallow embedding of [my_hydro_helper.cpp] (namespace [my_user]) and
    of [run_entropy.cpp]: the functor [entropy_generation_rhs], the
    stepping loop of [main], and of the options [at_option_parser],
    [program_options] and the part of [get_input] that fills the parameter
    map.

    Conventions of the embedding.
    - A C++ [double] is a real number ([R]) in the embedding of the whole
      program: rounding, overflow, infinities and NaN are outside of it.
      The claims about numbers are stated with the comparisons and the
      operations the code makes.  The functions whose arithmetic matters
      ([set_user_defined_options], [rho_function] and the step controller)
      are embedded a second time in the module [Binary64], on the binary64
      numbers of IEEE 754 (the primitive floats), where they can be run.
    - [std::map<std::string, boost::any>] is a [gmap string any];
      [std::vector<double>] is a [list R].
    - A C++ exception, a call of [exit] and an arithmetic trap end the
      computation: they are the [Throw] outcomes of [result].
    - The zone is a mutable object shared by reference: every function that
      receives it takes the current zone and returns the new one.
    - What lives in NucNet Tools, libnucnet, GSL and Boost (string
      constants, the network engine, the multistep integrator) is not part
      of this repository and is taken as a parameter: the classes
      [string_defs] and [collaborators]. *)

From Stdlib Require Import Reals Lra Lia.
From Stdlib Require Import Floats.
From stdpp Require Import gmap strings list.

Set Warnings "-inexact-float".

Local Open Scope R_scope.

(** ** Exceptions and fallible computations *)

Inductive exn : Type :=
  | bad_any_cast                         (* boost::bad_any_cast *)
  | exit_failure (message : string)      (* std::cerr << message; exit( EXIT_FAILURE ) *)
  | property_not_found (name : string)   (* zone.getProperty on an absent key *)
  | integer_division_by_zero             (* size_t % 0 *)
  | collaborator_failure (what : string) (* anything thrown by the engine or the integrator *).

Inductive result (A : Type) : Type :=
  | Ok (a : A)
  | Throw (e : exn).

Arguments Ok {A} a.
Arguments Throw {A} e.

#[export] Instance result_ret : MRet result := fun A a => Ok a.

#[export] Instance result_bind : MBind result :=
  fun A B f m => match m with Ok a => f a | Throw e => Throw e end.

(** ** [boost::any] and the parameter map *)

Inductive any : Type :=
  | any_empty                 (* a default-constructed boost::any *)
  | any_double (d : R)
  | any_size_t (n : N)
  | any_string (s : string)   (* a std::string *)
  | any_c_str (s : string)    (* a character-array constant, held as const char * *).

Definition any_cast_double (a : any) : result R :=
  match a with any_double d => Ok d | _ => Throw bad_any_cast end.

Definition any_cast_size_t (a : any) : result N :=
  match a with any_size_t n => Ok n | _ => Throw bad_any_cast end.

Definition any_cast_string (a : any) : result string :=
  match a with any_string s => Ok s | _ => Throw bad_any_cast end.

(** [my_user::param_map_t].  [param_map[key]] default-constructs the entry
    of an absent key: what is read there is an empty [boost::any]. *)
Abbreviation param_map_t := (gmap string any).

Definition at_key (param_map : param_map_t) (key : string) : any :=
  default any_empty (param_map !! key).

(** [po::variables_map]: [vmap[key].as<double>()] is a [boost::any_cast]. *)
Abbreviation variables_map := (gmap string any).

Definition as_double (vmap : variables_map) (key : string) : result R :=
  any_cast_double (at_key vmap key).

(** ** State vectors *)

Abbreviation state_type := (list R).

(** [x[i]] for reading and [x[i] = v] for writing; the code only uses the
    indices 0, 1 and 2 of vectors of size 3. *)
Definition get (x : state_type) (i : nat) : R := nth i x 0.
Definition set (x : state_type) (i : nat) (v : R) : state_type := <[i := v]> x.

(** ** GSL *)

Definition gsl_pow_2 (x : R) : R := x * x.
Definition gsl_pow_3 (x : R) : R := x * x * x.
Definition gsl_pow_4 (x : R) : R := let x2 := x * x in x2 * x2.
Definition GSL_MIN (a b : R) : R := if Rlt_dec a b then a else b.

(** ** String constants *)

(** The constants of [nnt/string_defs.h] (namespace [nnt]).  The header is
    not in the repository: the constants are parameters.  Each of them is a
    character array, used as a key of the parameter map and of the zone's
    property store. *)
Class string_defs : Type := {
  s_T9_0 : string;
  s_RHO_0 : string;
  s_TAU : string;
  s_TIME : string;
  s_DTIME : string;
  s_TEND : string;
  s_STEPS : string;
  s_T9 : string;
  s_RHO : string;
  s_ENTROPY_PER_NUCLEON : string;
  EVOLUTION_NETWORK : string
}.

(** The macros of [my_hydro_helper.h] and [run_entropy.cpp]. *)
Definition S_DELTA_TRAJ : string := "delta".
Definition S_RHO_1 : string := "rho_1".
Definition S_RHO_2 : string := "rho_2".
Definition S_ROOT_FACTOR : string := "root_factor".
Definition S_X : string := "x".
Definition S_OBSERVE : string := "observe".
Definition S_T9_GUESS : string := "t9_guess".

Definition D_REG_T : R := 0.15.
Definition D_REG_Y : R := 0.15.
Definition D_X_REG_T : R := 0.15.
Definition D_Y_MIN_DT : R := 1e-10.
Definition D_LIM_CUTOFF : R := 1e-25.
Definition B_OUTPUT_EVERY_TIME_DUMP : bool := false.

(** The user options that [get_user_defined_descriptions] declares, each
    with a default value of type [double]. *)
Definition user_options `{sd : string_defs} : list string :=
  [s_T9_0; s_RHO_0; S_RHO_1; s_TAU; S_DELTA_TRAJ; S_ROOT_FACTOR].

(** What the option parser hands over: each user option is stored, as a
    [double]. *)
Definition holds_user_options `{sd : string_defs} (vmap : variables_map) : Prop :=
  forall key, key ∈ user_options -> exists d, vmap !! key = Some (any_double d).

(** ** The zone *)

(** A property is addressed by its name and an optional tag
    ([zone.updateProperty( S_X, "0", x[0] )]). *)
Abbreviation property_key := (string * option string)%type.

(** [nnt::Zone] around a [Libnucnet__Zone]: the property store, the
    abundances and abundance changes of the species, and the rest of the
    engine's state (network, views, rates), which the driver never
    inspects. *)
Record zone_t {engine_state : Type} : Type := {
  properties : gmap property_key R;
  abundances : list R;
  abundance_changes : list R;
  engine : engine_state
}.
Arguments zone_t : clear implicits.

Section Zone.
Context {engine_state : Type}.
#[local] Abbreviation Zone := (zone_t engine_state).

(** Modelled from the spec: the property store of [nnt::Zone]
    ([zone.getProperty<double>], [zone.updateProperty]), which lives in
    NucNet Tools: a keyed store of scalars, where reading a key that is
    absent fails and an update sets the key. *)
Definition getProperty (name : string) (z : Zone) : result R :=
  match properties z !! (name, None) with
  | Some v => Ok v
  | None => Throw (property_not_found name)
  end.

Definition updateProperty (name : string) (v : R) (z : Zone) : Zone :=
  {| properties := <[(name, None) := v]> (properties z);
     abundances := abundances z;
     abundance_changes := abundance_changes z;
     engine := engine z |}.

Definition updateProperty_tag (name tag : string) (v : R) (z : Zone) : Zone :=
  {| properties := <[(name, Some tag) := v]> (properties z);
     abundances := abundances z;
     abundance_changes := abundance_changes z;
     engine := engine z |}.

(** Modelled from the spec: the abundance accessors of libnucnet, which
    take the snapshot of the abundance state and write it back.
    [Libnucnet__Zone__getAbundances] hands out a fresh [gsl_vector] holding
    a copy of the abundances; [Libnucnet__Zone__updateAbundances] copies a
    vector back into the zone.  The same for the abundance changes. *)
Definition Libnucnet__Zone__getAbundances (z : Zone) : list R :=
  abundances z.

Definition Libnucnet__Zone__getAbundanceChanges (z : Zone) : list R :=
  abundance_changes z.

Definition Libnucnet__Zone__updateAbundances (z : Zone) (p : list R) : Zone :=
  {| properties := properties z;
     abundances := p;
     abundance_changes := abundance_changes z;
     engine := engine z |}.

Definition Libnucnet__Zone__updateAbundanceChanges (z : Zone) (p : list R) : Zone :=
  {| properties := properties z;
     abundances := abundances z;
     abundance_changes := p;
     engine := engine z |}.
End Zone.

(** ** The collaborators *)

(** The network engine (NucNet Tools, libnucnet) and the integrator
    (Boost.Odeint) behind the interface the driver uses.  The C++ ones may
    throw; the C ones of libnucnet cannot.  With them goes the one choice
    the language leaves to the implementation and that can be observed:
    the order in which the arguments of a call are evaluated. *)
Class collaborators (engine_state : Type) : Type := {
  (** whether the arguments of a call are evaluated from the last to the
      first; C++ leaves the order unspecified *)
  arguments_right_to_left : bool;
  (** [Libnucnet__NetView *] *)
  NetView : Type;
  (** [boost::numeric::odeint::adams_bashforth<4, my_state_type>], with
      the history it keeps between steps *)
  stepper_t : Type;
  (** the network copy [p_my_output] that collects the zone snapshots *)
  output_t : Type;
  (** [nnt::compute_1d_root( boost::bind( user::t9_from_entropy_root, _1,
      boost::ref( zone ), p_view ), guess, factor )] *)
  compute_1d_root :
    NetView -> R -> R -> zone_t engine_state -> result (R * zone_t engine_state);
  (** [zone.getNetView( label )] *)
  getNetView :
    string -> zone_t engine_state -> result (NetView * zone_t engine_state);
  (** [user::limit_evolution_network( zone, cutoff )] *)
  limit_evolution_network :
    R -> zone_t engine_state -> result (zone_t engine_state);
  (** [stepper.do_step( rhs, x, t, dt )]: advances [x] in place, calling
      [rhs( x, dxdt, t )] as often as it needs *)
  do_step :
    (state_type -> state_type -> R -> zone_t engine_state ->
       result (state_type * zone_t engine_state)) ->
    stepper_t -> state_type -> R -> R -> zone_t engine_state ->
    result (stepper_t * state_type * zone_t engine_state);
  (** [Libnucnet__Zone__updateTimeStep( zone, &dt, regt, regy, ymin )]: the
      value it leaves in [dt] *)
  Libnucnet__Zone__updateTimeStep :
    zone_t engine_state -> R -> R -> R -> R -> R;
  (** [sprintf( s, "%d", k ); Libnucnet__relabelZone( nucnet, zone, s, NULL,
      NULL )] *)
  Libnucnet__relabelZone : Z -> zone_t engine_state -> zone_t engine_state;
  (** [nnt::print_zone_abundances( zone )] *)
  print_zone_abundances : zone_t engine_state -> result unit;
  (** [nnt::write_xml( p_my_output, zone.getNucnetZone() )] *)
  write_xml : output_t -> zone_t engine_state -> result output_t
}.

(** The functions registered in the zone ([zone.updateFunction]) and looked
    up by name at every call ([zone.getFunction], [zone.hasFunction]), with
    the signatures of the [boost::function]s they are cast to.  All but the
    density function are bound to the zone by reference. *)
Record zone_functions {engine_state : Type} {C : collaborators engine_state} : Type := {
  (** [S_RHO_FUNCTION : double( const state_type& )] *)
  rho_func : state_type -> result R;
  (** [S_ENTROPY_FUNCTION : double()] *)
  entropy_func : zone_t engine_state -> result (R * zone_t engine_state);
  (** [S_T9_FUNCTION : double( Libnucnet__NetView * )] *)
  t9_func : NetView -> zone_t engine_state -> result (R * zone_t engine_state);
  (** [S_EVOLVE_FUNCTION : void( Libnucnet__NetView *, const double )] *)
  evolve_func : NetView -> R -> zone_t engine_state -> result (zone_t engine_state);
  (** [S_ACCELERATION_FUNCTION : double( const state_type&, const double )] *)
  acceleration_func :
    state_type -> R -> zone_t engine_state -> result (R * zone_t engine_state);
  (** [S_ENTROPY_GENERATION_FUNCTION : double( Libnucnet__NetView * )] *)
  entropy_generation_func :
    NetView -> zone_t engine_state -> result (R * zone_t engine_state);
  (** [S_OBSERVER_FUNCTION : void( const state_type&, const state_type&,
      const double )], when registered *)
  observer_func :
    option (state_type -> state_type -> R -> zone_t engine_state ->
            result (zone_t engine_state))
}.
Arguments zone_functions engine_state {C}.

(** ** [my_hydro_helper.cpp] *)

Section MyUser.
Context `{sd : string_defs} {engine_state : Type} {C : collaborators engine_state}.
#[local] Abbreviation Zone := (zone_t engine_state).

(** [set_user_defined_options( vmap, param_map )] *)
Definition set_user_defined_options
    (vmap : variables_map) (param_map : param_map_t) : result param_map_t :=
  v ← as_double vmap s_T9_0;
  let param_map := <[s_T9_0 := any_double v]> param_map in
  v ← as_double vmap s_RHO_0;
  let param_map := <[s_RHO_0 := any_double v]> param_map in
  v ← as_double vmap S_RHO_1;
  let param_map := <[S_RHO_1 := any_double v]> param_map in
  v ← as_double vmap s_TAU;
  let param_map := <[s_TAU := any_double v]> param_map in
  v ← as_double vmap S_DELTA_TRAJ;
  let param_map := <[S_DELTA_TRAJ := any_double v]> param_map in
  v ← as_double vmap S_ROOT_FACTOR;
  let param_map := <[S_ROOT_FACTOR := any_double v]> param_map in
  rho_1 ← any_cast_double (at_key param_map S_RHO_1);
  rho_0 ← any_cast_double (at_key param_map s_RHO_0);
  if Rgt_dec rho_1 rho_0 then
    Throw (exit_failure "rho_1 must be less than rho_0.")
  else
    rho_0 ← any_cast_double (at_key param_map s_RHO_0);
    rho_1 ← any_cast_double (at_key param_map S_RHO_1);
    Ok (<[S_RHO_2 := any_double (rho_0 - rho_1)]> param_map).

(** [initialize_state( param_map, x )].  In two places the cast is
    applied to the key itself, [boost::any_cast<double>( nnt::s_TAU )] and
    [boost::any_cast<double>( nnt::s_RHO_0 )], not to the entry of the
    parameter map: the [boost::any] is then built from the character
    array. *)
Definition initialize_state
    (param_map : param_map_t) (x : state_type) : result state_type :=
  let x := set x 0 1 in
  rho_1 ← any_cast_double (at_key param_map S_RHO_1);
  tau ← any_cast_double (any_c_str s_TAU);
  rho_2 ← any_cast_double (at_key param_map S_RHO_2);
  delta ← any_cast_double (at_key param_map S_DELTA_TRAJ);
  rho_0 ← any_cast_double (any_c_str s_RHO_0);
  Ok (set x 1
        (gsl_pow_4 (get x 0) * ((rho_1 / tau) + (2 * rho_2 / delta))
         / (3 * rho_0))).

(** [acceleration( param_map, zone, x, time )].  The statement that
    assigns [x[2]] is read the way it is indented (its parentheses do not
    balance), and the assignment through the [const] reference is taken as
    written: the function hands back the vector with the new [x[2]]
    together with its value.  The casts are evaluated in the order of the
    text. *)
Definition acceleration
    (param_map : param_map_t) (z : Zone) (x : state_type) (time : R) :
    result (R * state_type) :=
  rho_1 ← any_cast_double (at_key param_map S_RHO_1);
  tau_k ← any_cast_double (any_c_str s_TAU);
  tau ← any_cast_double (at_key param_map s_TAU);
  rho_2 ← any_cast_double (at_key param_map S_RHO_2);
  delta ← any_cast_double (at_key param_map S_DELTA_TRAJ);
  let driving :=
    4 * get x 1 * (((rho_1 / tau_k) * exp (- time / tau)) + (2 * rho_2 / delta)) in
  rho_1 ← any_cast_double (at_key param_map S_RHO_1);
  tau_k ← any_cast_double (any_c_str s_TAU);
  tau ← any_cast_double (at_key param_map s_TAU);
  rho_2 ← any_cast_double (at_key param_map S_RHO_2);
  delta ← any_cast_double (at_key param_map S_DELTA_TRAJ);
  let restoring :=
    get x 0 * (((rho_1 / gsl_pow_2 tau_k) * exp (- time / tau))
               + (6 * rho_2 / gsl_pow_2 delta)) in
  rho_0 ← any_cast_double (any_c_str s_RHO_0);
  let x := set x 2 (gsl_pow_3 (get x 0) * (driving - restoring) / (3 * rho_0)) in
  tau ← any_cast_double (at_key param_map s_TAU);
  Ok (get x 1 / (3 * tau), x).

(** [rho_function( param_map, x )] *)
Definition rho_function (param_map : param_map_t) (x : state_type) : result R :=
  rho_0 ← any_cast_double (at_key param_map s_RHO_0);
  Ok (rho_0 / gsl_pow_3 (get x 0)).

(** [t9_function( zone, param_map, p_view )].  The guess
    [zone.getProperty<double>( nnt::s_T9 )] and the factor
    [boost::any_cast<double>( param_map[S_ROOT_FACTOR] )] are two arguments
    of the one call of [nnt::compute_1d_root]: which of them is evaluated
    first is the implementation's choice. *)
Definition t9_function
    (z : Zone) (param_map : param_map_t) (p_view : NetView) : result (R * Zone) :=
  '(guess, factor) ←
    (if arguments_right_to_left then
       factor ← any_cast_double (at_key param_map S_ROOT_FACTOR);
       guess ← getProperty s_T9 z;
       Ok (guess, factor)
     else
       guess ← getProperty s_T9 z;
       factor ← any_cast_double (at_key param_map S_ROOT_FACTOR);
       Ok (guess, factor));
  compute_1d_root p_view guess factor z.
End MyUser.

(** ** [run_entropy.cpp]: the right-hand side *)

Section RHS.
Context `{sd : string_defs} {engine_state : Type} {C : collaborators engine_state}.
#[local] Abbreviation Zone := (zone_t engine_state).

(** [entropy_generation_rhs::operator()( x, dxdt, d_t )], for the functor
    built on [zone] and [pView]; [fns] is what the zone has registered. *)
Definition entropy_generation_rhs
    (fns : zone_functions engine_state) (pView : NetView)
    (x dxdt : state_type) (d_t : R) (z : Zone) : result (state_type * Zone) :=
  let p_abundances := Libnucnet__Zone__getAbundances z in
  let p_abundance_changes := Libnucnet__Zone__getAbundanceChanges z in
  d_t9_old ← getProperty s_T9 z;
  time ← getProperty s_TIME z;
  let d_dt := d_t - time in
  let z := updateProperty s_DTIME d_dt z in
  let z := updateProperty s_ENTROPY_PER_NUCLEON (get x 2) z in
  rho ← rho_func fns x;
  let z := updateProperty s_RHO rho z in
  '(t9, z) ← t9_func fns pView z;
  let z := updateProperty s_T9 t9 z in
  z ← evolve_func fns pView d_dt z;
  let dxdt := set dxdt 0 (get x 1) in
  '(a, z) ← acceleration_func fns x d_t z;
  let dxdt := set dxdt 1 a in
  '(d_entropy_generation, z) ← entropy_generation_func fns pView z;
  let dxdt := set dxdt 2 d_entropy_generation in
  z ← match observer_func fns with
      | Some observer => observer x dxdt d_t z
      | None => Ok z
      end;
  let z := Libnucnet__Zone__updateAbundances z p_abundances in
  let z := Libnucnet__Zone__updateAbundanceChanges z p_abundance_changes in
  let z := updateProperty s_T9 d_t9_old z in
  Ok (dxdt, z).
End RHS.

(** ** [run_entropy.cpp]: the driver *)

(** The outcome of a loop that is run with a bound on its iterations. *)
Inductive outcome (A : Type) : Type :=
  | Finished (a : A)
  | Aborted (e : exn)
  | OutOfFuel.

Arguments Finished {A} a.
Arguments Aborted {A} e.
Arguments OutOfFuel {A}.

(** The variables of [main] that the loop reads and writes, and the files
    written so far by [Libnucnet__writeToXmlFile], oldest first. *)
Record driver_state {engine_state : Type} {C : collaborators engine_state} : Type := {
  d_t : R;
  d_dt : R;
  d_t9_old : R;
  d_dt9dt : R;
  x : state_type;
  xold : state_type;
  i_step : N;
  k : Z;
  zone : zone_t engine_state;
  stepper : stepper_t;
  p_my_output : output_t;
  files : list (string * output_t)
}.
Arguments driver_state engine_state {C}.

Section Driver.
Context `{sd : string_defs} {engine_state : Type} {C : collaborators engine_state}.
#[local] Abbreviation Zone := (zone_t engine_state).

(** What [main] holds fixed during the loop: the functions registered in
    the zone, the parameter map, the view made from the [sdot] XPaths (a
    null pointer without them) and [argv[3]]. *)
Context (fns : zone_functions engine_state) (param_map : param_map_t)
        (p_view : option NetView) (output_xml : string).

Definition x_lim : state_type := [1e-10; 1; 1e-5].

(** The [for] loop over the components of [x] that computes [d_h]. *)
Definition relative_change_bound (x xold : state_type) (d_dt : R) : R :=
  fold_left
    (fun d_h i =>
       let delta := Rabs ((get x i - get xold i) / get x i) in
       if Rgt_dec delta 0 then
         if Rgt_dec (Rabs (get x i)) (get x_lim i) then
           GSL_MIN d_h (D_X_REG_T * d_dt / delta)
         else d_h
       else d_h)
    (seq 0 (length x)) 1e99.

(** The end of the loop body, from [double d_h = 1.e99] on: [d_dt] is the
    step just made, [engine_dt] what [Libnucnet__Zone__updateTimeStep]
    leaves in [d_dt], [d_t] the time reached and [tend] the end time. *)
Definition update_timestep (x xold : state_type) (d_t d_dt engine_dt tend : R) : R :=
  let d_h := relative_change_bound x xold d_dt in
  let d_dt := engine_dt in
  let d_dt := if Rgt_dec d_dt d_h then d_h else d_dt in
  if Rgt_dec (d_t + d_dt) tend then tend - d_t else d_dt.

(** [size_t] arithmetic. *)
Definition size_t_succ (n : N) : N := ((n + 1) mod 2 ^ 64)%N.

Definition size_t_mod (n m : N) : result N :=
  if decide (m = 0%N) then Throw integer_division_by_zero else Ok (n mod m)%N.

(** One pass through the body of the [while] loop. *)
Definition iteration (s : driver_state engine_state) : result (driver_state engine_state) :=
  let z := updateProperty s_TIME (d_t s) (zone s) in
  let xold := x s in
  '(p_sdot_view, z) ←
    match p_view with
    | Some v => Ok (v, z)
    | None => getNetView EVOLUTION_NETWORK z
    end;
  '(stepper, x, z) ←
    do_step (entropy_generation_rhs fns p_sdot_view)
            (stepper s) (x s) (d_t s) (d_dt s) z;
  let d_dt := d_dt s in
  let d_t := d_t s + d_dt in
  let z := updateProperty s_DTIME d_dt z in
  let z := updateProperty s_TIME d_t z in
  rho ← rho_function param_map x;
  let z := updateProperty s_RHO rho z in
  let z := updateProperty s_ENTROPY_PER_NUCLEON (get x 2) z in
  guess ← any_cast_string (at_key param_map S_T9_GUESS);
  let z :=
    if decide (guess = "yes")
    then updateProperty s_T9 (d_t9_old s + d_dt9dt s * d_dt) z
    else z in
  '(view, z) ← getNetView EVOLUTION_NETWORK z;
  '(t9, z) ← t9_function z param_map view;
  let z := updateProperty s_T9 t9 z in
  guess ← any_cast_string (at_key param_map S_T9_GUESS);
  '(d_dt9dt, d_t9_old) ←
    (if decide (guess = "yes") then
       t9 ← getProperty s_T9 z;
       let d_dt9dt := (t9 - d_t9_old s) / d_dt in
       t9 ← getProperty s_T9 z;
       Ok (d_dt9dt, t9)
     else Ok (d_dt9dt s, d_t9_old s));
  '(view, z) ← getNetView EVOLUTION_NETWORK z;
  z ← evolve_func fns view d_dt z;
  let z := updateProperty_tag S_X "0" (get x 0) z in
  let z := updateProperty_tag S_X "1" (get x 1) z in
  _ ← any_cast_string (at_key param_map S_OBSERVE);
  steps ← any_cast_size_t (at_key param_map s_STEPS);
  r ← size_t_mod (i_step s) steps;
  let i_step := size_t_succ (i_step s) in
  dump ←
    (if decide (r = 0%N) then Ok true
     else tend ← any_cast_double (at_key param_map s_TEND);
          Ok (if Rge_dec d_t tend then true else false));
  '(k, z, p_my_output, files) ←
    (if dump : bool then
       let k := (k s + 1)%Z in
       let z := Libnucnet__relabelZone k z in
       _ ← print_zone_abundances z;
       p_my_output ← write_xml (p_my_output s) z;
       let files :=
         if B_OUTPUT_EVERY_TIME_DUMP
         then files s ++ [(output_xml, p_my_output)]
         else files s in
       Ok (k, z, p_my_output, files)
     else Ok (k s, z, p_my_output s, files s));
  z ← limit_evolution_network D_LIM_CUTOFF z;
  let engine_dt := Libnucnet__Zone__updateTimeStep z d_dt D_REG_T D_REG_Y D_Y_MIN_DT in
  tend ← any_cast_double (at_key param_map s_TEND);
  Ok {| d_t := d_t;
        d_dt := update_timestep x xold d_t d_dt engine_dt tend;
        d_t9_old := d_t9_old;
        d_dt9dt := d_dt9dt;
        x := x;
        xold := xold;
        i_step := i_step;
        k := k;
        zone := z;
        stepper := stepper;
        p_my_output := p_my_output;
        files := files |}.

(** [while ( d_t < tend ) { ... }], for at most [fuel] passes. *)
Fixpoint stepping (fuel : nat) (s : driver_state engine_state) :
    outcome (driver_state engine_state) :=
  match any_cast_double (at_key param_map s_TEND) with
  | Throw e => Aborted e
  | Ok tend =>
      if Rlt_dec (d_t s) tend then
        match fuel with
        | O => OutOfFuel
        | S fuel =>
            match iteration s with
            | Throw e => Aborted e
            | Ok s => stepping fuel s
            end
        end
      else Finished s
  end.

(** [Libnucnet__writeToXmlFile( p_my_output, argv[3] )] *)
Definition Libnucnet__writeToXmlFile (s : driver_state engine_state) :
    driver_state engine_state :=
  {| d_t := d_t s; d_dt := d_dt s; d_t9_old := d_t9_old s;
     d_dt9dt := d_dt9dt s; x := x s; xold := xold s; i_step := i_step s;
     k := k s; zone := zone s; stepper := stepper s;
     p_my_output := p_my_output s;
     files := files s ++ [(output_xml, p_my_output s)] |}.

(** The loop and the output that follows it. *)
Definition evolve_and_write (fuel : nat) (s : driver_state engine_state) :
    outcome (driver_state engine_state) :=
  match stepping fuel s with
  | Finished s => Finished (Libnucnet__writeToXmlFile s)
  | Aborted e => Aborted e
  | OutOfFuel => OutOfFuel
  end.

(** "Initialize the system": from the update of [nnt::s_T9] to the first
    [user::limit_evolution_network], for the zone, integrator and output
    network that the set-up before it has made.  The property
    [nnt::s_PARTICLE], a string, is left out: the property store of the
    model holds the numbers only. *)
Definition initialize (z : Zone) (stepper : stepper_t) (p_my_output : output_t) :
    result (driver_state engine_state) :=
  let x := [0; 0; 0] in
  let xold := [0; 0; 0] in
  t9_0 ← any_cast_double (at_key param_map s_T9_0);
  let z := updateProperty s_T9 t9_0 z in
  rho_0 ← any_cast_double (at_key param_map s_RHO_0);
  let z := updateProperty s_RHO rho_0 z in
  d_t9_old ← getProperty s_T9 z;
  let d_dt9dt := 0 in
  d_dt ← any_cast_double (at_key param_map s_DTIME);
  d_t ← any_cast_double (at_key param_map s_TIME);
  x ← initialize_state param_map x;
  '(entropy, z) ← entropy_func fns z;
  let x := set x 2 entropy in
  z ← limit_evolution_network D_LIM_CUTOFF z;
  Ok {| d_t := d_t; d_dt := d_dt; d_t9_old := d_t9_old; d_dt9dt := d_dt9dt;
        x := x; xold := xold; i_step := 0; k := 0; zone := z;
        stepper := stepper; p_my_output := p_my_output; files := [] |}.

(** [main] from "Initialize the system" to its end. *)
Definition main (fuel : nat) (z : Zone) (stepper : stepper_t) (p_my_output : output_t) :
    outcome (driver_state engine_state) :=
  match initialize z stepper p_my_output with
  | Throw e => Aborted e
  | Ok s => evolve_and_write fuel s
  end.
End Driver.

(** ** [run_entropy.cpp]: the options *)

Definition S_RESPONSE_FILE : string := "response_file".
Definition S_PROGRAM_OPTIONS : string := "program_options".

(** The character ['@'], of code 64. *)
Definition at_sign : Ascii.ascii := Ascii.ascii_of_nat 64.

(** [at_option_parser( s )]: the extra parser of the command line.  On the
    empty string [s[0]] is the terminating null character. *)
Definition at_option_parser (s : string) : string * string :=
  match s with
  | String c rest =>
      if Ascii.eqb at_sign c then (S_RESPONSE_FILE, rest)
      else (EmptyString, EmptyString)
  | EmptyString => (EmptyString, EmptyString)
  end.

(** How a process ends in [exit]: the status, and what it has written to
    [std::cout] before. *)
Inductive exit_status : Type := EXIT_SUCCESS | EXIT_FAILURE.

Record exited : Type := { status : exit_status; cout : string }.

Definition endl : string := String (Ascii.ascii_of_nat 10) EmptyString.

(** [program_options( vmap, help, general, network, user, all )]; the five
    option descriptions are given the way [operator<<] prints them.  Every
    path ends in [exit]: the function hands nothing back to its caller. *)
Definition program_options
    (vmap : variables_map) (help general network user all : string) : result exited :=
  s ← any_cast_string (at_key vmap S_PROGRAM_OPTIONS);
  if decide (s = "help") then
    Ok {| status := EXIT_SUCCESS; cout := help ++ endl |}
  else if decide (s = "general") then
    Ok {| status := EXIT_SUCCESS; cout := general ++ endl |}
  else if decide (s = "network") then
    Ok {| status := EXIT_SUCCESS; cout := network ++ endl |}
  else if decide (s = "user") then
    Ok {| status := EXIT_SUCCESS; cout := user ++ endl |}
  else if decide (s = "all") then
    Ok {| status := EXIT_SUCCESS; cout := all ++ endl |}
  else
    Ok {| status := EXIT_FAILURE;
          cout := endl ++ "Unknown options_description '" ++ s ++ "' in the "
                  ++ "--program_options option" ++ endl ++ endl |}.

(** The other option names of [nnt/string_defs.h] that [get_input] uses. *)
Class run_string_defs : Type := {
  s_USE_SCREENING : string;
  s_USE_NSE_CORRECTION : string;
  s_MU_NUE_KT : string
}.

Definition as_size_t (vmap : variables_map) (key : string) : result N :=
  any_cast_size_t (at_key vmap key).

Definition as_string (vmap : variables_map) (key : string) : result string :=
  any_cast_string (at_key vmap key).

Section GetInput.
Context `{sd : string_defs} `{rd : run_string_defs}.

(** The keys [get_input] writes from "Get other data" on, with the one
    [set_user_defined_options] adds. *)
Definition run_options : list string :=
  [s_TIME; s_DTIME; s_TEND; s_STEPS; s_USE_SCREENING; s_USE_NSE_CORRECTION;
   S_T9_GUESS; S_OBSERVE; s_MU_NUE_KT].

Definition all_options : list string :=
  run_options ++ S_RHO_2 :: user_options.

(** [get_input] from "Get other data" to [return param_map], inside the
    [try] block. *)
Definition get_other_data
    (vm : variables_map) (param_map : param_map_t) : result param_map_t :=
  v ← as_double vm s_TIME;
  let param_map := <[s_TIME := any_double v]> param_map in
  v ← as_double vm s_DTIME;
  let param_map := <[s_DTIME := any_double v]> param_map in
  v ← as_double vm s_TEND;
  let param_map := <[s_TEND := any_double v]> param_map in
  v ← as_size_t vm s_STEPS;
  let param_map := <[s_STEPS := any_size_t v]> param_map in
  v ← as_string vm s_USE_SCREENING;
  let param_map := <[s_USE_SCREENING := any_string v]> param_map in
  v ← as_string vm s_USE_NSE_CORRECTION;
  let param_map := <[s_USE_NSE_CORRECTION := any_string v]> param_map in
  v ← as_string vm S_T9_GUESS;
  let param_map := <[S_T9_GUESS := any_string v]> param_map in
  v ← as_string vm S_OBSERVE;
  let param_map := <[S_OBSERVE := any_string v]> param_map in
  v ← as_string vm s_MU_NUE_KT;
  let param_map := <[s_MU_NUE_KT := any_string v]> param_map in
  set_user_defined_options vm param_map.

(** The handlers of [get_input]: [catch( std::exception& e )] reports
    [e.what()] and exits, [catch(...)] reports an unknown exception and
    exits.  [what] gives the text of an exception; a call of [exit] and a
    trap are no exceptions and pass. *)
Definition get_input_handlers {A : Type} (what : exn -> string) (r : result A) : result A :=
  match r with
  | Ok a => Ok a
  | Throw (exit_failure message) => Throw (exit_failure message)
  | Throw integer_division_by_zero => Throw integer_division_by_zero
  | Throw e => Throw (exit_failure ("error: " ++ what e ++ endl))
  end.

Definition get_input_data (what : exn -> string)
    (vm : variables_map) (param_map : param_map_t) : result param_map_t :=
  get_input_handlers what (get_other_data vm param_map).
End GetInput.

(** ** The step controller in the words of the specification *)

(** The relative change of component [i] over the step,
    [|x[i] - x_old[i]| / |x[i]|]. *)
Definition relative_change (x xold : state_type) (i : nat) : R :=
  Rabs (get x i - get xold i) / Rabs (get x i).

(** The candidate step sizes of the components [l]: one candidate
    [reg_x * dt / delta_i] for each component with [|x[i]| > x_lim[i]] and a
    relative change [delta_i] that is not zero. *)
Definition candidates_at (x xold : state_type) (d_dt : R) (l : list nat) : list R :=
  flat_map
    (fun i =>
       if Rgt_dec (Rabs (get x i)) (get x_lim i) then
         if Req_dec_T (relative_change x xold i) 0 then []
         else [D_X_REG_T * d_dt / relative_change x xold i]
       else [])
    l.

Definition candidate_steps (x xold : state_type) (d_dt : R) : list R :=
  candidates_at x xold d_dt (seq 0 (length x)).

(** The least of [top] and the members of [l]. *)
Definition minimum (top : R) (l : list R) : R := fold_right Rmin top l.

(** ** The arithmetic in binary64 *)

(** The functions whose results depend on the arithmetic, embedded on the
    [double]s of the machine: [float] is the binary64 format of IEEE 754,
    with its infinities, its NaN and rounding to the nearest number; a
    decimal constant is the binary64 number nearest to it, as in C++.
    [a > b] is written [b <? a]; a comparison with a NaN is false.  The
    statements are those of the source, in the same order as in the
    embedding on the real numbers. *)
Module Binary64.

Inductive any : Type :=
  | any_empty
  | any_double (d : float)
  | any_size_t (n : N)
  | any_string (s : string)
  | any_c_str (s : string).

Definition any_cast_double (a : any) : result float :=
  match a with any_double d => Ok d | _ => Throw bad_any_cast end.

Definition at_key (param_map : gmap string any) (key : string) : any :=
  default any_empty (param_map !! key).

Definition as_double (vmap : gmap string any) (key : string) : result float :=
  any_cast_double (at_key vmap key).

Definition get (x : list float) (i : nat) : float := nth i x 0%float.

Definition gsl_pow_3 (x : float) : float := (x * x * x)%float.
Definition GSL_MIN (a b : float) : float := if (a <? b)%float then a else b.

Definition D_X_REG_T : float := 0.15%float.

(** [set_user_defined_options( vmap, param_map )] *)
Definition set_user_defined_options `{sd : string_defs}
    (vmap : gmap string any) (param_map : gmap string any) :
    result (gmap string any) :=
  v ← as_double vmap s_T9_0;
  let param_map := <[s_T9_0 := any_double v]> param_map in
  v ← as_double vmap s_RHO_0;
  let param_map := <[s_RHO_0 := any_double v]> param_map in
  v ← as_double vmap S_RHO_1;
  let param_map := <[S_RHO_1 := any_double v]> param_map in
  v ← as_double vmap s_TAU;
  let param_map := <[s_TAU := any_double v]> param_map in
  v ← as_double vmap S_DELTA_TRAJ;
  let param_map := <[S_DELTA_TRAJ := any_double v]> param_map in
  v ← as_double vmap S_ROOT_FACTOR;
  let param_map := <[S_ROOT_FACTOR := any_double v]> param_map in
  rho_1 ← any_cast_double (at_key param_map S_RHO_1);
  rho_0 ← any_cast_double (at_key param_map s_RHO_0);
  if (rho_0 <? rho_1)%float then
    Throw (exit_failure "rho_1 must be less than rho_0.")
  else
    rho_0 ← any_cast_double (at_key param_map s_RHO_0);
    rho_1 ← any_cast_double (at_key param_map S_RHO_1);
    Ok (<[S_RHO_2 := any_double (rho_0 - rho_1)%float]> param_map).

(** [rho_function( param_map, x )] *)
Definition rho_function `{sd : string_defs}
    (param_map : gmap string any) (x : list float) : result float :=
  rho_0 ← any_cast_double (at_key param_map s_RHO_0);
  Ok (rho_0 / gsl_pow_3 (get x 0))%float.

Definition x_lim : list float := [1e-10; 1; 1e-5]%float.

(** The [for] loop over the components of [x] that computes [d_h]. *)
Definition relative_change_bound (x xold : list float) (d_dt : float) : float :=
  fold_left
    (fun d_h i =>
       let delta := abs ((get x i - get xold i) / get x i)%float in
       if (0 <? delta)%float then
         if (get x_lim i <? abs (get x i))%float then
           GSL_MIN d_h (D_X_REG_T * d_dt / delta)%float
         else d_h
       else d_h)
    (seq 0 (length x)) 1e99%float.

(** The end of the loop body, from [double d_h = 1.e99] on. *)
Definition update_timestep
    (x xold : list float) (d_t d_dt engine_dt tend : float) : float :=
  let d_h := relative_change_bound x xold d_dt in
  let d_dt := engine_dt in
  let d_dt := if (d_h <? d_dt)%float then d_h else d_dt in
  if (tend <? d_t + d_dt)%float then (tend - d_t)%float else d_dt.
End Binary64.

(** ** Concrete parameters *)

(** The values the constants have in NucNet Tools. *)
Definition nnt_strings : string_defs :=
  {| s_T9_0 := "t9_0";
     s_RHO_0 := "rho_0";
     s_TAU := "tau";
     s_TIME := "time";
     s_DTIME := "dt";
     s_TEND := "tend";
     s_STEPS := "steps";
     s_T9 := "t9";
     s_RHO := "rho";
     s_ENTROPY_PER_NUCLEON := "entropy per nucleon";
     EVOLUTION_NETWORK := "evolution network" |}.

(** The options with the default values of [get_user_defined_descriptions]. *)
Definition default_vmap : variables_map :=
  <["t9_0" := any_double 10]>
  (<["rho_0" := any_double 1e8]>
  (<["rho_1" := any_double 9e7]>
  (<["tau" := any_double 0.1]>
  (<["delta" := any_double 0.1]>
  (<["root_factor" := any_double 1.001]> ∅))))).

(** The parameter map [set_user_defined_options] makes of [rho_0 = -8] and
    [rho_1 = -9], the other options at their defaults. *)
Definition negative_density_vmap : variables_map :=
  <["rho_0" := any_double (-8)]> (<["rho_1" := any_double (-9)]> default_vmap).

Definition negative_density_params : param_map_t :=
  <["rho_2" := any_double (-8 - -9)]>
  (<["root_factor" := any_double 1.001]>
  (<["delta" := any_double 0.1]>
  (<["tau" := any_double 0.1]>
  (<["rho_1" := any_double (-9)]>
  (<["rho_0" := any_double (-8)]>
  (<["t9_0" := any_double 10]> ∅)))))).

(** The user options in binary64: [rho_0] and [rho_1] as given, the other
    options at their default values. *)
Definition binary64_vmap (rho_0 rho_1 : float) : gmap string Binary64.any :=
  <["t9_0" := Binary64.any_double 10]>
  (<["rho_0" := Binary64.any_double rho_0]>
  (<["rho_1" := Binary64.any_double rho_1]>
  (<["tau" := Binary64.any_double 0.1]>
  (<["delta" := Binary64.any_double 0.1]>
  (<["root_factor" := Binary64.any_double 1.001]> ∅))))).

(** *** A small engine to run the driver on *)

(** The explicit Euler method, [x + dt * dxdt], as the integrator. *)
Definition euler (x dxdt : state_type) (dt : R) : state_type :=
  zip_with (fun a b => a + dt * b) x dxdt.

(** Collaborators without a network: the arguments of a call are
    evaluated from the first to the last, the root finder returns
    [guess * factor], the integrator makes one Euler step from one
    evaluation of the right-hand side, and the engine recommends
    [recommend dt] as the next step after a step [dt]. *)
Definition toy_collaborators (recommend : R -> R) : collaborators unit :=
  {| arguments_right_to_left := false;
     NetView := unit;
     stepper_t := unit;
     output_t := nat;
     compute_1d_root := fun _ guess factor z => Ok (guess * factor, z);
     getNetView := fun _ z => Ok (tt, z);
     limit_evolution_network := fun _ z => Ok z;
     do_step := fun rhs st x t dt z =>
       '(dxdt, z) ← rhs x [0; 0; 0] t z; Ok (st, euler x dxdt dt, z);
     Libnucnet__Zone__updateTimeStep := fun _ dt _ _ _ => recommend dt;
     Libnucnet__relabelZone := fun _ z => z;
     print_zone_abundances := fun _ => Ok tt;
     write_xml := fun out _ => Ok (S out) |}.

(** The functions of the zone: density and temperature are the ones [main]
    registers, bound to the parameter map; the evolution halves every
    abundance; the acceleration is [x[1] / 3] and no entropy is
    generated. *)
Definition toy_functions `{sd : string_defs} (recommend : R -> R)
    (param_map : param_map_t) : @zone_functions unit (toy_collaborators recommend) :=
  {| rho_func := rho_function param_map;
     entropy_func := fun z => Ok (1, z);
     t9_func := fun view z =>
       @t9_function sd unit (toy_collaborators recommend) z param_map view;
     evolve_func := fun _ _ z =>
       Ok (Libnucnet__Zone__updateAbundanceChanges
             (Libnucnet__Zone__updateAbundances z (map (fun y => y / 2) (abundances z)))
             (map (fun y => - y / 2) (abundances z)));
     acceleration_func := fun x _ z => Ok (get x 1 / 3, z);
     entropy_generation_func := fun _ z => Ok (0, z);
     observer_func := None |}.

Definition toy_params (tend : R) : param_map_t :=
  <["rho_0" := any_double 8]>
  (<["root_factor" := any_double 2]>
  (<["tend" := any_double tend]>
  (<["steps" := any_size_t 20]>
  (<["t9_guess" := any_string "yes"]>
  (<["observe" := any_string "no"]> ∅))))).

Definition toy_zone : zone_t unit :=
  {| properties := <[("t9", None) := 5]> (<[("time", None) := 0]> ∅);
     abundances := [1 / 2; 1 / 2];
     abundance_changes := [0; 0];
     engine := tt |}.

(** The driver on the small engine, without a view for the entropy
    generation and with [output.xml] as its output file. *)
Definition toy_iteration (recommend : R -> R) (tend : R) :=
  @iteration nnt_strings unit (toy_collaborators recommend)
    (@toy_functions nnt_strings recommend (toy_params tend)) (toy_params tend)
    None "output.xml".

Definition toy_stepping (recommend : R -> R) (tend : R) :=
  @stepping nnt_strings unit (toy_collaborators recommend)
    (@toy_functions nnt_strings recommend (toy_params tend)) (toy_params tend)
    None "output.xml".

Definition toy_evolve_and_write (recommend : R -> R) (tend : R) :=
  @evolve_and_write nnt_strings unit (toy_collaborators recommend)
    (@toy_functions nnt_strings recommend (toy_params tend)) (toy_params tend)
    None "output.xml".

(** The state on entry to the loop, at time [t] with a first step [dt] and
    the state vector [x0]. *)
Definition toy_state (recommend : R -> R) (t dt : R) (x0 : state_type) :
    @driver_state unit (toy_collaborators recommend) :=
  {| d_t := t; d_dt := dt; d_t9_old := 5; d_dt9dt := 0;
     x := x0; xold := [0; 0; 0]; i_step := 0; k := 0;
     zone := toy_zone;
     stepper := (tt : @stepper_t unit (toy_collaborators recommend));
     p_my_output := (0%nat : @output_t unit (toy_collaborators recommend));
     files := [] |}.

(** The states in which the small engine is at rest: [x = {1, 0, 0}], with
    a temperature in the zone. *)
Definition toy_at_rest {recommend : R -> R}
    (s : @driver_state unit (toy_collaborators recommend)) : Prop :=
  (exists t9, getProperty "t9" (zone s) = Ok t9) /\ x s = [1; 0; 0].

(** At rest, with a step of at least 1 or one that reaches [tend]. *)
Definition toy_steady (tend : R) {recommend : R -> R}
    (s : @driver_state unit (toy_collaborators recommend)) : Prop :=
  toy_at_rest s /\ (1 <= d_dt s \/ tend <= d_t s + d_dt s).

(** The functions of the small engine with an evolution that fails. *)
Definition toy_failing_functions `{sd : string_defs} (recommend : R -> R)
    (param_map : param_map_t) : @zone_functions unit (toy_collaborators recommend) :=
  {| rho_func := rho_func (toy_functions recommend param_map);
     entropy_func := entropy_func (toy_functions recommend param_map);
     t9_func := t9_func (toy_functions recommend param_map);
     evolve_func := fun _ _ _ => Throw (collaborator_failure "evolve");
     acceleration_func := acceleration_func (toy_functions recommend param_map);
     entropy_generation_func :=
       entropy_generation_func (toy_functions recommend param_map);
     observer_func := None |}.

(** The other option names as they are in NucNet Tools. *)
Definition nnt_run_strings : run_string_defs :=
  {| s_USE_SCREENING := "use screening";
     s_USE_NSE_CORRECTION := "use nse correction";
     s_MU_NUE_KT := "munuekT" |}.

(** The options of a run with the default values of [get_input]. *)
Definition default_run_vmap : variables_map :=
  <["time" := any_double 0]>
  (<["dt" := any_double 1e-15]>
  (<["tend" := any_double 10]>
  (<["steps" := any_size_t 20]>
  (<["use screening" := any_string "no"]>
  (<["use nse correction" := any_string "no"]>
  (<["t9_guess" := any_string "yes"]>
  (<["observe" := any_string "no"]>
  (<["munuekT" := any_string "-inf"]> default_vmap)))))))).

(** * Properties *)

(** ** Casts *)

Lemma any_cast_double_Ok (a : any) (d : R) :
  any_cast_double a = Ok d <-> a = any_double d.
Proof.
  destruct a; simpl; split; intros E; inversion E; reflexivity.
Qed.

Lemma any_cast_double_Throw (a : any) (e : exn) :
  any_cast_double a = Throw e -> e = bad_any_cast.
Proof.
  destruct a; simpl; intros E; inversion E; reflexivity.
Qed.

Lemma any_cast_double_c_str (s : string) :
  any_cast_double (any_c_str s) = Throw bad_any_cast.
Proof. reflexivity. Qed.

Lemma at_key_lookup (m : gmap string any) (key : string) (a : any) :
  m !! key = Some a -> at_key m key = a.
Proof. unfold at_key. intros ->. reflexivity. Qed.

Lemma at_key_insert_eq (m : gmap string any) (key : string) (a : any) :
  at_key (<[key := a]> m) key = a.
Proof. unfold at_key. rewrite lookup_insert_eq. reflexivity. Qed.

Lemma at_key_insert_ne (m : gmap string any) (key key' : string) (a : any) :
  key <> key' -> at_key (<[key := a]> m) key' = at_key m key'.
Proof. intros Hne. unfold at_key. rewrite lookup_insert_ne by exact Hne. reflexivity. Qed.

(** A cast either delivers the double or throws [bad_any_cast]. *)
Lemma any_cast_double_cases (a : any) :
  (exists d, any_cast_double a = Ok d) \/ any_cast_double a = Throw bad_any_cast.
Proof. destruct a; simpl; eauto. Qed.

Ltac at_key_simpl :=
  repeat (rewrite at_key_insert_eq || rewrite at_key_insert_ne by congruence).

Ltac cast_cases a :=
  let d := fresh "d" in
  let E := fresh "E" in
  destruct (any_cast_double_cases a) as [[d E] | E];
  rewrite E; simpl; [ | reflexivity ].

(** ** [initialize_state] and [acceleration] *)

Section MyUserProperties.
Context `{sd : string_defs} {engine_state : Type} {C : collaborators engine_state}.

(** The cast of the key [nnt::s_TAU] ends [initialize_state]. *)
Lemma initialize_state_bad_any_cast (param_map : param_map_t) (x0 : state_type) :
  initialize_state param_map x0 = Throw bad_any_cast.
Proof.
  unfold initialize_state.
  cast_cases (at_key param_map S_RHO_1).
  reflexivity.
Qed.

(** C3.  [initialize_state] never delivers a state: after [x[0] = 1.] the
    expression for [x[1]] casts the key [nnt::s_TAU] itself to [double],
    which throws [boost::bad_any_cast] for every parameter map and every
    vector; [x[1]] is never assigned. *)
Theorem initialize_state_throws (param_map : param_map_t) (x0 : state_type) :
  initialize_state param_map x0 = Throw bad_any_cast.
Proof. exact (initialize_state_bad_any_cast param_map x0). Qed.

(** C8.  [acceleration] never returns: the expression assigned to [x[2]]
    casts the key [nnt::s_TAU] itself to [double], which throws
    [boost::bad_any_cast] for every parameter map, zone, state and time,
    before [x[2]] is written and before the [return] statement. *)
Theorem acceleration_throws
    (param_map : param_map_t) (z : zone_t engine_state) (x0 : state_type) (time : R) :
  acceleration param_map z x0 time = Throw bad_any_cast.
Proof.
  unfold acceleration.
  cast_cases (at_key param_map S_RHO_1).
  reflexivity.
Qed.
End MyUserProperties.

(** ** [set_user_defined_options] *)

Section Configuration.
Context `{sd : string_defs}.

Lemma as_double_lookup (vmap : variables_map) (key : string) (d : R) :
  vmap !! key = Some (any_double d) -> as_double vmap key = Ok d.
Proof.
  intros E. unfold as_double. rewrite (at_key_lookup _ _ _ E). reflexivity.
Qed.

Lemma distinct_option_keys :
  NoDup (S_RHO_2 :: user_options) ->
  S_RHO_2 <> s_RHO_0 /\ s_RHO_0 <> S_RHO_1 /\ s_RHO_0 <> s_TAU
  /\ s_RHO_0 <> S_DELTA_TRAJ /\ s_RHO_0 <> S_ROOT_FACTOR
  /\ S_RHO_1 <> s_TAU.
Proof.
  unfold user_options.
  rewrite !NoDup_cons, !not_elem_of_cons. tauto.
Qed.

(** With the six options stored, the function is the test of
    [rho_1 > rho_0] followed by the seven assignments. *)
Lemma set_user_defined_options_unfold
    (vmap : variables_map) (param_map : param_map_t)
    (t9_0 rho_0 rho_1 tau delta factor : R) :
  NoDup (S_RHO_2 :: user_options) ->
  vmap !! s_T9_0 = Some (any_double t9_0) ->
  vmap !! s_RHO_0 = Some (any_double rho_0) ->
  vmap !! S_RHO_1 = Some (any_double rho_1) ->
  vmap !! s_TAU = Some (any_double tau) ->
  vmap !! S_DELTA_TRAJ = Some (any_double delta) ->
  vmap !! S_ROOT_FACTOR = Some (any_double factor) ->
  set_user_defined_options vmap param_map =
    if Rgt_dec rho_1 rho_0
    then Throw (exit_failure "rho_1 must be less than rho_0.")
    else Ok (<[S_RHO_2 := any_double (rho_0 - rho_1)]>
             (<[S_ROOT_FACTOR := any_double factor]>
             (<[S_DELTA_TRAJ := any_double delta]>
             (<[s_TAU := any_double tau]>
             (<[S_RHO_1 := any_double rho_1]>
             (<[s_RHO_0 := any_double rho_0]>
             (<[s_T9_0 := any_double t9_0]> param_map))))))).
Proof.
  intros Hnd H1 H2 H3 H4 H5 H6.
  destruct (distinct_option_keys Hnd) as (? & ? & ? & ? & ? & ?).
  unfold set_user_defined_options.
  rewrite (as_double_lookup _ _ _ H1); simpl.
  rewrite (as_double_lookup _ _ _ H2); simpl.
  rewrite (as_double_lookup _ _ _ H3); simpl.
  rewrite (as_double_lookup _ _ _ H4); simpl.
  rewrite (as_double_lookup _ _ _ H5); simpl.
  rewrite (as_double_lookup _ _ _ H6); simpl.
  assert (S_RHO_1 <> S_DELTA_TRAJ) by discriminate.
  assert (S_RHO_1 <> S_ROOT_FACTOR) by discriminate.
  at_key_simpl. simpl. at_key_simpl. simpl.
  destruct (Rgt_dec rho_1 rho_0); [reflexivity|].
  at_key_simpl. simpl. at_key_simpl. reflexivity.
Qed.

(** C9, as amended.  With the user options stored as the parser stores
    them, [set_user_defined_options] fails exactly when the test
    [rho_1 > rho_0] succeeds, by reporting on [std::cerr] and calling
    [exit( EXIT_FAILURE )]; when it returns, the test has failed and the
    parameter map holds [rho_0] and [rho_1] as they were given and the
    difference [rho_0 - rho_1], as the subtraction delivers it, under
    [rho_2].  Nothing in the driver writes the parameter map afterwards:
    [iteration] and [stepping] only read it. *)
Theorem set_user_defined_options_spec
    (vmap : variables_map) (param_map : param_map_t) (rho_0 rho_1 : R) :
  NoDup (S_RHO_2 :: user_options) ->
  holds_user_options vmap ->
  vmap !! s_RHO_0 = Some (any_double rho_0) ->
  vmap !! S_RHO_1 = Some (any_double rho_1) ->
  ((exists e, set_user_defined_options vmap param_map = Throw e) <-> rho_1 > rho_0)
  /\ (rho_1 > rho_0 ->
      set_user_defined_options vmap param_map =
        Throw (exit_failure "rho_1 must be less than rho_0."))
  /\ (forall param_map',
        set_user_defined_options vmap param_map = Ok param_map' ->
        at_key param_map' s_RHO_0 = any_double rho_0
        /\ at_key param_map' S_RHO_1 = any_double rho_1
        /\ at_key param_map' S_RHO_2 = any_double (rho_0 - rho_1)
        /\ ~ rho_1 > rho_0).
Proof.
  intros Hnd Hopts Hrho_0 Hrho_1.
  assert (forall key, key ∈ user_options -> key ∈ user_options) as Hin by auto.
  unfold user_options at 1 in Hin.
  destruct (Hopts s_T9_0) as [t9_0 H1];
    [apply Hin; rewrite !elem_of_cons; tauto|].
  destruct (Hopts s_TAU) as [tau H4];
    [apply Hin; rewrite !elem_of_cons; tauto|].
  destruct (Hopts S_DELTA_TRAJ) as [delta H5];
    [apply Hin; rewrite !elem_of_cons; tauto|].
  destruct (Hopts S_ROOT_FACTOR) as [factor H6];
    [apply Hin; rewrite !elem_of_cons; tauto|].
  rewrite (set_user_defined_options_unfold vmap param_map _ _ _ _ _ _
             Hnd H1 Hrho_0 Hrho_1 H4 H5 H6).
  destruct (distinct_option_keys Hnd) as (? & ? & ? & ? & ? & ?).
  assert (S_RHO_2 <> S_RHO_1) by discriminate.
  assert (S_RHO_1 <> S_DELTA_TRAJ) by discriminate.
  assert (S_RHO_1 <> S_ROOT_FACTOR) by discriminate.
  destruct (Rgt_dec rho_1 rho_0) as [Hgt | Hle].
  - split; [|split].
    + split; [intros _; exact Hgt | intros _; eexists; reflexivity].
    + reflexivity.
    + intros pm' E. discriminate E.
  - split; [|split].
    + split; [intros [e E]; discriminate E | intros Hgt; contradiction].
    + intros Hgt. contradiction.
    + intros pm' E. injection E as <-.
      at_key_simpl. repeat split; try reflexivity. exact Hle.
Qed.
End Configuration.

Lemma nnt_user_options_distinct :
  NoDup (S_RHO_2 :: @user_options nnt_strings).
Proof. unfold user_options; simpl. compute_done. Qed.

Lemma default_vmap_holds_user_options :
  @holds_user_options nnt_strings default_vmap.
Proof.
  intros key Hk. unfold user_options in Hk. simpl in Hk.
  rewrite !elem_of_cons, elem_of_nil in Hk.
  destruct Hk as [-> | [-> | [-> | [-> | [-> | [-> | []]]]]]];
    eexists; reflexivity.
Qed.

(** The default options ([rho_0 = 1.e8], [rho_1 = 9.e7]) are accepted. *)
Lemma set_user_defined_options_spec_witness :
  ((exists e, @set_user_defined_options nnt_strings default_vmap ∅ = Throw e)
   <-> 9e7 > 1e8)
  /\ (9e7 > 1e8 ->
      @set_user_defined_options nnt_strings default_vmap ∅ =
        Throw (exit_failure "rho_1 must be less than rho_0."))
  /\ (forall param_map',
        @set_user_defined_options nnt_strings default_vmap ∅ = Ok param_map' ->
        at_key param_map' "rho_0" = any_double 1e8
        /\ at_key param_map' "rho_1" = any_double 9e7
        /\ at_key param_map' "rho_2" = any_double (1e8 - 9e7)
        /\ ~ 9e7 > 1e8).
Proof.
  apply (@set_user_defined_options_spec nnt_strings default_vmap ∅ 1e8 9e7).
  - exact nnt_user_options_distinct.
  - exact default_vmap_holds_user_options.
  - reflexivity.
  - reflexivity.
Defined.

(** C9, as stated, fails on the numbers of the machine.  In binary64, with
    [rho_0 = 0.9] and [rho_1 = 0.3], [set_user_defined_options] returns and
    stores [rho_2 = 0.9 - 0.3], and [rho_1 + rho_2] is not [rho_0] (it is
    [0.90000000000000013]).  And with a NaN as [rho_1] the test
    [rho_1 > rho_0] fails, the function returns, and [rho_1 <= rho_0] does
    not hold. *)
Lemma rho_2_invariant_counterexample :
  (exists param_map',
     @Binary64.set_user_defined_options nnt_strings (binary64_vmap 0.9 0.3) ∅
     = Ok param_map'
     /\ Binary64.at_key param_map' "rho_0" = Binary64.any_double 0.9
     /\ Binary64.at_key param_map' "rho_1" = Binary64.any_double 0.3
     /\ Binary64.at_key param_map' "rho_2" = Binary64.any_double (0.9 - 0.3)
     /\ (0.3 + (0.9 - 0.3) =? 0.9)%float = false)
  /\ (exists param_map',
        @Binary64.set_user_defined_options nnt_strings (binary64_vmap 0.9 nan) ∅
        = Ok param_map'
        /\ Binary64.at_key param_map' "rho_1" = Binary64.any_double nan
        /\ (nan <=? 0.9)%float = false).
Proof.
  split.
  - eexists. split; [vm_compute; reflexivity|].
    repeat split; vm_compute; reflexivity.
  - eexists. split; [vm_compute; reflexivity|].
    repeat split; vm_compute; reflexivity.
Qed.

(** ** [rho_function] *)

Section Density.
Context `{sd : string_defs}.

Lemma rho_function_unfold (param_map : param_map_t) (rho_0 : R) (x0 : state_type) :
  at_key param_map s_RHO_0 = any_double rho_0 ->
  rho_function param_map x0 = Ok (rho_0 / gsl_pow_3 (get x0 0)).
Proof. intros E. unfold rho_function. rewrite E. reflexivity. Qed.

Lemma gsl_pow_3_increasing (a b : R) : 0 < a -> a < b -> gsl_pow_3 a < gsl_pow_3 b.
Proof.
  intros Ha Hab. unfold gsl_pow_3.
  assert (a * a < b * b) by nra.
  nra.
Qed.

Lemma gsl_pow_3_pos (a : R) : 0 < a -> 0 < gsl_pow_3 a.
Proof.
  intros Ha. unfold gsl_pow_3.
  assert (0 < a * a) by nra.
  nra.
Qed.

(** C7, as amended.  For a parameter map that holds [rho_0],
    [rho_function] returns for every state, without a check of [x[0]] and
    without an error, also when [x[0]] is 0; what it returns for
    [x[0] <> 0] is the quotient [rho_0 / x[0]^3]; the density at
    [x[0] = 1] is [rho_0]; and for [rho_0 > 0] the density is never
    larger at a larger [x[0] > 0]. *)
Theorem rho_function_spec (param_map : param_map_t) (rho_0 : R) :
  at_key param_map s_RHO_0 = any_double rho_0 ->
  (forall x0 : state_type,
     exists rho, rho_function param_map x0 = Ok rho
       /\ (get x0 0 <> 0 -> rho = rho_0 / (get x0 0 * get x0 0 * get x0 0)))
  /\ (forall x0 : state_type, get x0 0 = 1 -> rho_function param_map x0 = Ok rho_0)
  /\ (0 < rho_0 ->
      forall (xa xb : state_type) (rho_a rho_b : R),
        rho_function param_map xa = Ok rho_a ->
        rho_function param_map xb = Ok rho_b ->
        0 < get xa 0 -> get xa 0 <= get xb 0 ->
        ~ rho_a < rho_b).
Proof.
  intros E. split; [|split].
  - intros x0. eexists. split; [apply (rho_function_unfold _ _ _ E)|].
    intros _. reflexivity.
  - intros x0 H1. rewrite (rho_function_unfold _ _ _ E), H1.
    unfold gsl_pow_3. f_equal. field.
  - intros Hpos xa xb rho_a rho_b Ea Eb Ha Hab.
    rewrite (rho_function_unfold _ _ _ E) in Ea.
    rewrite (rho_function_unfold _ _ _ E) in Eb.
    injection Ea as <-. injection Eb as <-.
    apply Rle_not_lt.
    destruct Hab as [Hlt | Heq]; [| rewrite Heq; apply Rle_refl].
    pose proof (gsl_pow_3_pos _ Ha) as Hpa.
    pose proof (gsl_pow_3_increasing _ _ Ha Hlt) as Hinc.
    apply Rlt_le.
    unfold Rdiv. apply Rmult_lt_compat_l; [exact Hpos|].
    apply Rinv_lt_contravar; [nra | exact Hinc].
Qed.
End Density.

(** The default initial density, at [x[0] = 1] and [x[0] = 2]. *)
Lemma rho_function_spec_witness :
  (forall x0 : state_type,
     exists rho,
       @rho_function nnt_strings (<["rho_0" := any_double 1e8]> ∅) x0 = Ok rho
       /\ (get x0 0 <> 0 -> rho = 1e8 / (get x0 0 * get x0 0 * get x0 0)))
  /\ (forall x0 : state_type, get x0 0 = 1 ->
      @rho_function nnt_strings (<["rho_0" := any_double 1e8]> ∅) x0 = Ok 1e8)
  /\ (0 < 1e8 ->
      forall (xa xb : state_type) (rho_a rho_b : R),
        @rho_function nnt_strings (<["rho_0" := any_double 1e8]> ∅) xa = Ok rho_a ->
        @rho_function nnt_strings (<["rho_0" := any_double 1e8]> ∅) xb = Ok rho_b ->
        0 < get xa 0 -> get xa 0 <= get xb 0 ->
        ~ rho_a < rho_b).
Proof.
  apply (@rho_function_spec nnt_strings (<["rho_0" := any_double 1e8]> ∅) 1e8).
  reflexivity.
Defined.

(** The options [rho_0 = -8], [rho_1 = -9] pass the check of
    [set_user_defined_options]. *)
Lemma negative_density_accepted :
  @set_user_defined_options nnt_strings negative_density_vmap ∅
  = Ok negative_density_params.
Proof.
  rewrite (@set_user_defined_options_unfold nnt_strings negative_density_vmap ∅
             10 (-8) (-9) 0.1 0.1 1.001 nnt_user_options_distinct
             eq_refl eq_refl eq_refl eq_refl eq_refl eq_refl).
  destruct (Rgt_dec (-9) (-8)) as [Hgt | _]; [lra | reflexivity].
Qed.

(** C7, as stated, fails.  The options [rho_0 = -8], [rho_1 = -9] are
    accepted, and with them the density grows from [x[0] = 1] to
    [x[0] = 2], from -8 to -1.  And at [x[0] = 0] no error is raised: in
    binary64, with the default [rho_0 = 1.e8], the function returns the
    quotient of the division by zero, an infinity. *)
Lemma rho_function_counterexample :
  @set_user_defined_options nnt_strings negative_density_vmap ∅
  = Ok negative_density_params
  /\ @rho_function nnt_strings negative_density_params [1; 0; 0] = Ok (-8 / (1 * 1 * 1))
  /\ @rho_function nnt_strings negative_density_params [2; 0; 0] = Ok (-8 / (2 * 2 * 2))
  /\ -8 / (1 * 1 * 1) < -8 / (2 * 2 * 2)
  /\ @Binary64.rho_function nnt_strings
       (<["rho_0" := Binary64.any_double 1e8]> ∅) [0; 0; 0]%float
     = Ok infinity.
Proof.
  split; [exact negative_density_accepted|].
  split; [reflexivity|]. split; [reflexivity|]. split; [lra|].
  vm_compute. reflexivity.
Qed.

(** ** The right-hand side *)

Lemma bind_Ok {A B : Type} (m : result A) (f : A -> result B) (b : B) :
  m ≫= f = Ok b <-> exists a, m = Ok a /\ f a = Ok b.
Proof.
  destruct m as [a | e]; simpl; split.
  - intros E. exists a. split; [reflexivity | exact E].
  - intros (a' & E & Ef). injection E as ->. exact Ef.
  - intros E. discriminate E.
  - intros (a' & E & _). discriminate E.
Qed.

Tactic Notation "bind_inv" hyp(H) "as" simple_intropattern(a) simple_intropattern(E) :=
  apply bind_Ok in H; destruct H as (a & E & H); simpl in H.

Section RHSProperties.
Context `{sd : string_defs} {engine_state : Type} {C : collaborators engine_state}.

Lemma getProperty_updateProperty (name : string) (v : R) (z : zone_t engine_state) :
  getProperty name (updateProperty name v z) = Ok v.
Proof.
  unfold getProperty, updateProperty; simpl.
  rewrite lookup_insert_eq. reflexivity.
Qed.

(** C1.  A call of the right-hand side that returns leaves the temperature
    property [nnt::s_T9] of the zone as it found it.  In between the
    property is updated: the temperature function is called on the zone
    carrying the new time step, entropy and density, and the zone handed to
    the evolution function has [nnt::s_T9] set to the value [t9] it
    returned. *)
Theorem rhs_restores_T9
    (fns : zone_functions engine_state) (pView : NetView)
    (x0 dxdt : state_type) (t : R) (z : zone_t engine_state)
    (dxdt' : state_type) (z' : zone_t engine_state) :
  entropy_generation_rhs fns pView x0 dxdt t z = Ok (dxdt', z') ->
  getProperty s_T9 z' = getProperty s_T9 z
  /\ exists (time rho t9 : R) (z1 z2 : zone_t engine_state),
       getProperty s_TIME z = Ok time
       /\ rho_func fns x0 = Ok rho
       /\ t9_func fns pView
            (updateProperty s_RHO rho
               (updateProperty s_ENTROPY_PER_NUCLEON (get x0 2)
                  (updateProperty s_DTIME (t - time) z))) = Ok (t9, z1)
       /\ evolve_func fns pView (t - time) (updateProperty s_T9 t9 z1) = Ok z2.
Proof.
  intros Hrhs. unfold entropy_generation_rhs in Hrhs.
  bind_inv Hrhs as d_t9_old Eold.
  bind_inv Hrhs as time Etime.
  bind_inv Hrhs as rho Erho.
  bind_inv Hrhs as [t9 z1] Et9.
  bind_inv Hrhs as z2 Eevolve.
  bind_inv Hrhs as [a z3] Eacc.
  bind_inv Hrhs as [sdot z4] Esdot.
  bind_inv Hrhs as z5 Eobs.
  injection Hrhs as <- <-.
  split.
  - rewrite getProperty_updateProperty. symmetry. exact Eold.
  - exists time, rho, t9, z1, z2. auto.
Qed.

(** C10.  A call of the right-hand side that returns leaves the abundances
    and the abundance changes of the zone as it found them: what the
    evolution function made of them inside the call is overwritten with the
    copies taken at the start. *)
Theorem rhs_restores_abundances
    (fns : zone_functions engine_state) (pView : NetView)
    (x0 dxdt : state_type) (t : R) (z : zone_t engine_state)
    (dxdt' : state_type) (z' : zone_t engine_state) :
  entropy_generation_rhs fns pView x0 dxdt t z = Ok (dxdt', z') ->
  Libnucnet__Zone__getAbundances z' = Libnucnet__Zone__getAbundances z
  /\ Libnucnet__Zone__getAbundanceChanges z' = Libnucnet__Zone__getAbundanceChanges z.
Proof.
  intros Hrhs. unfold entropy_generation_rhs in Hrhs.
  bind_inv Hrhs as d_t9_old Eold.
  bind_inv Hrhs as time Etime.
  bind_inv Hrhs as rho Erho.
  bind_inv Hrhs as [t9 z1] Et9.
  bind_inv Hrhs as z2 Eevolve.
  bind_inv Hrhs as [a z3] Eacc.
  bind_inv Hrhs as [sdot z4] Esdot.
  bind_inv Hrhs as z5 Eobs.
  injection Hrhs as <- <-.
  split; reflexivity.
Qed.
End RHSProperties.

(** The right-hand side on the small engine, at [x = {1, 3, 7}] and
    [t = 1]: the zone it returns, and the derivative. *)
Lemma toy_rhs_value :
  @entropy_generation_rhs nnt_strings unit (toy_collaborators (fun dt => dt))
    (@toy_functions nnt_strings (fun dt => dt) (toy_params 10)) tt [1; 3; 7] [0; 0; 0] 1 toy_zone
  = Ok ([3; 3 / 3; 0],
        {| properties :=
             <[("t9", None) := 5]>
             (<[("t9", None) := 5 * 2]>
             (<[("rho", None) := 8 / (1 * 1 * 1)]>
             (<[("entropy per nucleon", None) := 7]>
             (<[("dt", None) := 1 - 0]> (properties toy_zone)))));
           abundances := [1 / 2; 1 / 2];
           abundance_changes := [0; 0];
           engine := tt |}).
Proof. reflexivity. Qed.

(** On the small engine the temperature is 5 before and after the call,
    and 10 while the abundances are evolved. *)
Lemma rhs_restores_T9_witness :
  exists (dxdt' : state_type) (z' : zone_t unit),
    @entropy_generation_rhs nnt_strings unit (toy_collaborators (fun dt => dt))
      (@toy_functions nnt_strings (fun dt => dt) (toy_params 10)) tt [1; 3; 7] [0; 0; 0] 1 toy_zone
    = Ok (dxdt', z')
    /\ @getProperty unit "t9" z' = @getProperty unit "t9" toy_zone.
Proof.
  eexists _, _. split; [exact toy_rhs_value|].
  exact (proj1 (@rhs_restores_T9 nnt_strings unit (toy_collaborators (fun dt => dt))
                  _ _ _ _ _ _ _ _ toy_rhs_value)).
Defined.

(** On the small engine the evolution halves the abundances, and the call
    hands back the zone with the abundances [{1/2, 1/2}] it started
    from. *)
Lemma rhs_restores_abundances_witness :
  exists (dxdt' : state_type) (z' : zone_t unit),
    @entropy_generation_rhs nnt_strings unit (toy_collaborators (fun dt => dt))
      (@toy_functions nnt_strings (fun dt => dt) (toy_params 10)) tt [1; 3; 7] [0; 0; 0] 1 toy_zone
    = Ok (dxdt', z')
    /\ abundances z' = [1 / 2; 1 / 2]
    /\ abundance_changes z' = [0; 0].
Proof.
  eexists _, _. split; [exact toy_rhs_value|].
  exact (@rhs_restores_abundances nnt_strings unit (toy_collaborators (fun dt => dt))
           _ _ _ _ _ _ _ _ toy_rhs_value).
Defined.

(** ** The step controller *)

Lemma GSL_MIN_Rmin (a b : R) : GSL_MIN a b = Rmin a b.
Proof.
  unfold GSL_MIN, Rmin.
  destruct (Rlt_dec a b), (Rle_dec a b); try reflexivity; lra.
Qed.

Lemma Rabs_quotient (a b : R) : Rabs (a / b) = Rabs a / Rabs b.
Proof. unfold Rdiv. rewrite Rabs_mult, Rabs_inv. reflexivity. Qed.

Lemma relative_change_nonneg (x1 x0 : state_type) (i : nat) :
  0 <= relative_change x1 x0 i.
Proof.
  unfold relative_change. rewrite <- Rabs_quotient. apply Rabs_pos.
Qed.

Lemma minimum_Rmin (a c : R) (l : list R) :
  minimum (Rmin a c) l = Rmin c (minimum a l).
Proof.
  induction l as [| b l IH]; simpl.
  - apply Rmin_comm.
  - rewrite IH. rewrite !Rmin_assoc. f_equal. apply Rmin_comm.
Qed.

Lemma minimum_app (top : R) (l1 l2 : list R) :
  minimum top (l1 ++ l2) = minimum (minimum top l2) l1.
Proof. unfold minimum. apply fold_right_app. Qed.

Lemma minimum_le_top (top : R) (l : list R) : minimum top l <= top.
Proof.
  induction l as [| a l IH]; simpl; [lra|].
  pose proof (Rmin_r a (minimum top l)). lra.
Qed.

Lemma minimum_le_elem (top : R) (l : list R) (a : R) :
  a ∈ l -> minimum top l <= a.
Proof.
  induction 1 as [a l | a b l Hin IH]; simpl.
  - apply Rmin_l.
  - pose proof (Rmin_r b (minimum top l)). lra.
Qed.

(** The [for] loop, started at [d_h] and run over the components [l],
    leaves the least of [d_h] and the candidates of [l]. *)
Lemma relative_change_bound_fold
    (x1 x0 : state_type) (d_dt : R) (l : list nat) (d_h : R) :
  fold_left
    (fun d_h i =>
       let delta := Rabs ((get x1 i - get x0 i) / get x1 i) in
       if Rgt_dec delta 0 then
         if Rgt_dec (Rabs (get x1 i)) (get x_lim i) then
           GSL_MIN d_h (D_X_REG_T * d_dt / delta)
         else d_h
       else d_h) l d_h
  = minimum d_h (candidates_at x1 x0 d_dt l).
Proof.
  revert d_h. induction l as [| i l IH]; intros d_h; simpl; [reflexivity|].
  rewrite IH. rewrite minimum_app.
  rewrite Rabs_quotient. fold (relative_change x1 x0 i).
  pose proof (relative_change_nonneg x1 x0 i) as Hnn.
  destruct (Rgt_dec (relative_change x1 x0 i) 0) as [Hpos | Hzero];
    destruct (Rgt_dec (Rabs (get x1 i)) (get x_lim i)) as [Hbig | Hsmall];
    try destruct (Req_dec_T (relative_change x1 x0 i) 0) as [Heq | Hne];
    simpl; try reflexivity; try lra.
  rewrite GSL_MIN_Rmin. rewrite minimum_Rmin.
  reflexivity.
Qed.

Lemma relative_change_bound_minimum (x1 x0 : state_type) (d_dt : R) :
  relative_change_bound x1 x0 d_dt = minimum 1e99 (candidate_steps x1 x0 d_dt).
Proof. apply relative_change_bound_fold. Qed.

Lemma update_timestep_Rmin (x1 x0 : state_type) (t dt engine_dt tend : R) :
  update_timestep x1 x0 t dt engine_dt tend
  = Rmin (Rmin (minimum 1e99 (candidate_steps x1 x0 dt)) engine_dt) (tend - t).
Proof.
  unfold update_timestep. rewrite relative_change_bound_minimum.
  set (d_h := minimum 1e99 (candidate_steps x1 x0 dt)).
  unfold Rmin.
  destruct (Rgt_dec engine_dt d_h), (Rle_dec d_h engine_dt); try lra;
  match goal with |- context [Rgt_dec ?a ?b] => destruct (Rgt_dec a b) end;
  match goal with |- context [Rle_dec ?a ?b] => destruct (Rle_dec a b) end;
  try reflexivity; lra.
Qed.

(** The step proposed, with the scan of the components as a minimum: the
    cap on the engine's step size, then the test against the end time. *)
Lemma update_timestep_clamp (x1 x0 : state_type) (t dt engine_dt tend : R) :
  update_timestep x1 x0 t dt engine_dt tend
  = if Rgt_dec
         (t + Rmin (minimum 1e99 (candidate_steps x1 x0 dt)) engine_dt) tend
    then tend - t
    else Rmin (minimum 1e99 (candidate_steps x1 x0 dt)) engine_dt.
Proof.
  unfold update_timestep. rewrite relative_change_bound_minimum.
  set (d_h := minimum 1e99 (candidate_steps x1 x0 dt)).
  assert ((if Rgt_dec engine_dt d_h then d_h else engine_dt) = Rmin d_h engine_dt)
    as ->.
  { unfold Rmin.
    destruct (Rgt_dec engine_dt d_h), (Rle_dec d_h engine_dt);
      try reflexivity; lra. }
  reflexivity.
Qed.

(** ** The stepping loop *)

Section DriverProperties.
Context `{sd : string_defs} {engine_state : Type} {C : collaborators engine_state}.
Context (fns : zone_functions engine_state) (param_map : param_map_t)
        (p_view : option NetView) (output_xml : string).

#[local] Abbreviation loop_body := (iteration fns param_map p_view output_xml).
#[local] Abbreviation loop := (stepping fns param_map p_view output_xml).

(** What a pass through the loop body that completes has done. *)
Lemma iteration_inv (s s' : driver_state engine_state) :
  loop_body s = Ok s' ->
  d_t s' = d_t s + d_dt s
  /\ xold s' = x s
  /\ files s' = files s
  /\ (exists (view : NetView) (z0 z1 : zone_t engine_state),
        do_step (entropy_generation_rhs fns view)
                (stepper s) (x s) (d_t s) (d_dt s) z0
        = Ok (stepper s', x s', z1))
  /\ (exists (view : NetView) (z0 z1 : zone_t engine_state),
        evolve_func fns view (d_dt s) z0 = Ok z1)
  /\ (exists tend : R,
        at_key param_map s_TEND = any_double tend
        /\ d_dt s' =
           update_timestep (x s') (x s) (d_t s') (d_dt s)
             (Libnucnet__Zone__updateTimeStep (zone s') (d_dt s)
                D_REG_T D_REG_Y D_Y_MIN_DT)
             tend).
Proof.
  intros Hit. unfold iteration in Hit.
  bind_inv Hit as [view z0] Eview.
  bind_inv Hit as [[st x1] z1] Estep.
  bind_inv Hit as rho Erho.
  bind_inv Hit as guess Eguess.
  bind_inv Hit as [view1 z2] Eview1.
  bind_inv Hit as [t9 z3] Et9.
  bind_inv Hit as guess' Eguess'.
  bind_inv Hit as [dt9dt t9old] Eold.
  bind_inv Hit as [view2 z4] Eview2.
  bind_inv Hit as z5 Eevolve.
  bind_inv Hit as observe Eobserve.
  bind_inv Hit as steps Esteps.
  bind_inv Hit as r Emod.
  bind_inv Hit as dump Edump.
  bind_inv Hit as [[[k1 z6] out] fl] Eout.
  bind_inv Hit as z7 Elimit.
  bind_inv Hit as tend Etend.
  injection Hit as <-. simpl.
  apply any_cast_double_Ok in Etend.
  assert (fl = files s) as ->.
  { destruct dump.
    - bind_inv Eout as u Eprint. bind_inv Eout as out' Ewrite.
      injection Eout as _ _ _ <-. reflexivity.
    - injection Eout as _ _ _ <-. reflexivity. }
  repeat split; try reflexivity; eauto 10.
Qed.

Lemma iteration_time (s s' : driver_state engine_state) :
  loop_body s = Ok s' -> d_t s' = d_t s + d_dt s.
Proof. intros Hit. apply (iteration_inv s s' Hit). Qed.

Lemma stepping_unfold (tend : R) (fuel : nat) (s : driver_state engine_state) :
  at_key param_map s_TEND = any_double tend ->
  loop fuel s =
    if Rlt_dec (d_t s) tend then
      match fuel with
      | O => OutOfFuel
      | S fuel =>
          match loop_body s with
          | Throw e => Aborted e
          | Ok s => loop fuel s
          end
      end
    else Finished s.
Proof. intros E. destruct fuel; simpl; rewrite E; reflexivity. Qed.

Lemma stepping_done (tend : R) (fuel : nat) (s : driver_state engine_state) :
  at_key param_map s_TEND = any_double tend ->
  ~ d_t s < tend -> loop fuel s = Finished s.
Proof.
  intros E Hge. rewrite (stepping_unfold tend fuel s E).
  destruct (Rlt_dec (d_t s) tend); [contradiction | reflexivity].
Qed.

Lemma stepping_step (tend : R) (fuel : nat) (s s' : driver_state engine_state) :
  at_key param_map s_TEND = any_double tend ->
  d_t s < tend -> loop_body s = Ok s' ->
  loop (S fuel) s = loop fuel s'.
Proof.
  intros E Hlt Hit. rewrite (stepping_unfold tend (S fuel) s E).
  destruct (Rlt_dec (d_t s) tend); [| contradiction].
  rewrite Hit. reflexivity.
Qed.

(** When the loop ends it has reached the end time, and it has written no
    file. *)
Lemma stepping_Finished (tend : R) (fuel : nat) (s s' : driver_state engine_state) :
  at_key param_map s_TEND = any_double tend ->
  loop fuel s = Finished s' ->
  tend <= d_t s' /\ files s' = files s.
Proof.
  intros E. revert s. induction fuel as [| fuel IH]; intros s Hfin;
    rewrite (stepping_unfold tend _ s E) in Hfin;
    destruct (Rlt_dec (d_t s) tend) as [Hlt | Hge].
  - discriminate Hfin.
  - injection Hfin as <-. split; [lra | reflexivity].
  - destruct (loop_body s) as [s1 | e] eqn:Hit; [| discriminate Hfin].
    destruct (IH s1 Hfin) as [Hend Hfiles]. split; [exact Hend|].
    rewrite Hfiles. apply (iteration_inv s s1 Hit).
  - injection Hfin as <-. split; [lra | reflexivity].
Qed.

(** C2, as amended.  At the end of a pass through the loop the next step
    size is found in two stages.  First the least, [m], is taken of: the
    cap [1.e99] with which the scan of the components starts; for each
    component [i] with [|x[i]| > x_lim[i]] ([x_lim = {1e-10, 1, 1e-5}])
    and a relative change [delta_i = |x[i] - x_old[i]| / |x[i]|] that is
    not zero, the candidate [D_X_REG_T * dt / delta_i]
    ([D_X_REG_T = 0.15], [dt] the step just made, [x_old] the state before
    it); and the step size the network engine recommends for the zone as
    the pass leaves it.  Then the step proposed is [tend - t] when
    [t + m > tend], and [m] otherwise. *)
Theorem iteration_next_step (s s' : driver_state engine_state) (tend : R) :
  at_key param_map s_TEND = any_double tend ->
  loop_body s = Ok s' ->
  exists m : R,
    m = Rmin (minimum 1e99 (candidate_steps (x s') (x s) (d_dt s)))
             (Libnucnet__Zone__updateTimeStep (zone s') (d_dt s)
                D_REG_T D_REG_Y D_Y_MIN_DT)
    /\ xold s' = x s
    /\ d_dt s' = if Rgt_dec (d_t s' + m) tend then tend - d_t s' else m.
Proof.
  intros E Hit.
  destruct (iteration_inv s s' Hit) as (_ & Hold & _ & _ & _ & (tend' & E' & Hdt)).
  rewrite E in E'. injection E' as <-.
  eexists. split; [reflexivity|]. split; [exact Hold|].
  rewrite Hdt. apply update_timestep_clamp.
Qed.

(** C4.  The first step is made with the configured step size as it is:
    when it is larger than [tend - t], the only pass through the loop ends
    at [t + dt], beyond [tend], and the loop is left there. *)
Theorem first_step_not_clamped (s s' : driver_state engine_state) (tend : R) :
  at_key param_map s_TEND = any_double tend ->
  d_t s < tend -> tend < d_t s + d_dt s ->
  loop_body s = Ok s' ->
  d_t s' = d_t s + d_dt s
  /\ tend < d_t s'
  /\ forall fuel, loop (S fuel) s = Finished s'.
Proof.
  intros E Hlt Hover Hit.
  pose proof (iteration_time s s' Hit) as Ht.
  split; [exact Ht|]. split; [lra|].
  intros fuel. rewrite (stepping_step tend fuel s s' E Hlt Hit).
  apply (stepping_done tend); [exact E | lra].
Qed.



(** With an advance of at least [h] in each pass, [n] passes cover a
    distance [n * h]. *)
Lemma stepping_terminates (Inv : driver_state engine_state -> Prop) (h tend : R) :
  at_key param_map s_TEND = any_double tend ->
  0 < h ->
  (forall s, Inv s -> d_t s < tend ->
     exists s', loop_body s = Ok s' /\ Inv s'
                /\ (h <= d_t s' - d_t s \/ ~ d_t s' < tend)) ->
  forall (n : nat) (s : driver_state engine_state),
    Inv s ->
    tend - d_t s <= INR n * h ->
    exists s', loop (S n) s = Finished s'.
Proof.
  intros E Hh Hpass.
  induction n as [| n IH]; intros s HInv Hdist.
  - simpl in Hdist. exists s.
    apply (stepping_done tend); [exact E | lra].
  - destruct (Rlt_dec (d_t s) tend) as [Hlt | Hge].
    + destruct (Hpass s HInv Hlt) as (s1 & Hit & HInv1 & Hadv).
      rewrite (stepping_step tend _ s s1 E Hlt Hit).
      destruct Hadv as [Hadv | Hend].
      * apply IH; [exact HInv1|].
        rewrite S_INR, Rmult_plus_distr_r, Rmult_1_l in Hdist. lra.
      * exists s1. apply (stepping_done tend); [exact E | exact Hend].
    + exists s. apply (stepping_done tend); [exact E | exact Hge].
Qed.

(** C6, as amended.  Let every pass through the loop complete, from the
    states [Inv] the run goes through, and let it advance the time by at
    least some [h > 0] or reach the end time.  Then the run leaves the
    loop.  And a run that leaves the loop has reached the end time, in
    that the test [t < tend] of the loop has failed, and has written the
    output file once, after the loop. *)
Theorem evolve_and_write_terminates
    (Inv : driver_state engine_state -> Prop) (h tend : R)
    (s0 : driver_state engine_state) :
  at_key param_map s_TEND = any_double tend ->
  0 < h ->
  (forall s, Inv s -> d_t s < tend ->
     exists s', loop_body s = Ok s' /\ Inv s'
                /\ (h <= d_t s' - d_t s \/ ~ d_t s' < tend)) ->
  Inv s0 ->
  (exists (fuel : nat) (s' : driver_state engine_state),
     evolve_and_write fns param_map p_view output_xml fuel s0 = Finished s')
  /\ (forall (fuel : nat) (s' : driver_state engine_state),
        evolve_and_write fns param_map p_view output_xml fuel s0 = Finished s' ->
        ~ d_t s' < tend
        /\ files s' = files s0 ++ [(output_xml, p_my_output s')]).
Proof.
  intros E Hh Hpass HInv. split.
  - destruct (Rlt_dec (d_t s0) tend) as [Hlt | Hge].
    + destruct (archimed ((tend - d_t s0) / h)) as [Hup _].
      set (n := Z.to_nat (up ((tend - d_t s0) / h))).
      assert (tend - d_t s0 <= INR n * h) as Hdist.
      { assert (0 < (tend - d_t s0) / h) as Hq.
        { apply Rdiv_lt_0_compat; lra. }
        assert (0 < up ((tend - d_t s0) / h))%Z as Hz.
        { apply lt_IZR. lra. }
        unfold n. rewrite INR_IZR_INZ, Z2Nat.id by lia.
        apply Rlt_le.
        apply (Rmult_lt_compat_r h) in Hup; [| exact Hh].
        replace ((tend - d_t s0) / h * h) with (tend - d_t s0) in Hup by (field; lra).
        lra. }
      destruct (stepping_terminates Inv h tend E Hh Hpass n s0 HInv Hdist)
        as (s' & Hfin).
      exists (S n), (Libnucnet__writeToXmlFile output_xml s').
      unfold evolve_and_write. fold loop. rewrite Hfin. reflexivity.
    + exists 0%nat, (Libnucnet__writeToXmlFile output_xml s0).
      unfold evolve_and_write. fold loop.
      rewrite (stepping_done tend 0 s0 E Hge). reflexivity.
  - intros fuel s' Hrun. unfold evolve_and_write in Hrun. fold loop in Hrun.
    destruct (loop fuel s0) as [s1 | e |] eqn:Hfin; try discriminate Hrun.
    injection Hrun as <-. simpl.
    destruct (stepping_Finished tend fuel s0 s1 E Hfin) as [Hend Hfiles].
    split; [lra | rewrite Hfiles; reflexivity].
Qed.

(** [main] never enters the loop: [initialize_state] throws. *)
Lemma main_aborts (fuel : nat) (z : zone_t engine_state)
    (stepper0 : stepper_t) (p_my_output0 : output_t) :
  exists e, main fns param_map p_view output_xml fuel z stepper0 p_my_output0 = Aborted e.
Proof.
  unfold main, initialize.
  destruct (any_cast_double (at_key param_map s_T9_0)) as [t9_0 | e]; simpl; [| eauto].
  destruct (any_cast_double (at_key param_map s_RHO_0)) as [rho_0 | e]; simpl; [| eauto].
  destruct (getProperty s_T9 _) as [t9 | e]; simpl; [| eauto].
  destruct (any_cast_double (at_key param_map s_DTIME)) as [dt | e]; simpl; [| eauto].
  destruct (any_cast_double (at_key param_map s_TIME)) as [t | e]; simpl; [| eauto].
  rewrite initialize_state_bad_any_cast. simpl. eauto.
Qed.
End DriverProperties.

(** ** The driver on the small engine *)

Section ZoneProperties.
Context {engine_state : Type}.

Lemma getProperty_updateProperty_ne
    (name name' : string) (v : R) (z : zone_t engine_state) :
  name <> name' -> getProperty name' (updateProperty name v z) = getProperty name' z.
Proof.
  intros Hne. unfold getProperty, updateProperty; simpl.
  rewrite lookup_insert_ne by congruence. reflexivity.
Qed.

Lemma getProperty_updateProperty_tag
    (name name' tag : string) (v : R) (z : zone_t engine_state) :
  getProperty name' (updateProperty_tag name tag v z) = getProperty name' z.
Proof.
  unfold getProperty, updateProperty_tag; simpl.
  rewrite lookup_insert_ne by congruence. reflexivity.
Qed.

Lemma getProperty_updateAbundances
    (name : string) (p : list R) (z : zone_t engine_state) :
  getProperty name (Libnucnet__Zone__updateAbundances z p) = getProperty name z.
Proof. reflexivity. Qed.

Lemma getProperty_updateAbundanceChanges
    (name : string) (p : list R) (z : zone_t engine_state) :
  getProperty name (Libnucnet__Zone__updateAbundanceChanges z p) = getProperty name z.
Proof. reflexivity. Qed.
End ZoneProperties.

Lemma toy_t9_function (recommend : R -> R) (tend : R) (z : zone_t unit)
    (view : @NetView unit (toy_collaborators recommend)) :
  @t9_function nnt_strings unit (toy_collaborators recommend) z (toy_params tend) view
  = (guess ← getProperty "t9" z; Ok (guess * 2, z)).
Proof.
  unfold t9_function. simpl.
  destruct (getProperty "t9" z); reflexivity.
Qed.

Lemma toy_rho_function (tend : R) (x0 : state_type) :
  @rho_function nnt_strings (toy_params tend) x0 = Ok (8 / gsl_pow_3 (get x0 0)).
Proof. reflexivity. Qed.

Lemma toy_t9_guess (tend : R) :
  any_cast_string (at_key (toy_params tend) S_T9_GUESS) = Ok "yes".
Proof. reflexivity. Qed.

Lemma toy_observe (tend : R) :
  any_cast_string (at_key (toy_params tend) S_OBSERVE) = Ok "no".
Proof. reflexivity. Qed.

Lemma toy_steps (tend : R) :
  any_cast_size_t (at_key (toy_params tend) "steps") = Ok 20%N.
Proof. reflexivity. Qed.

Lemma toy_tend (tend : R) :
  any_cast_double (at_key (toy_params tend) "tend") = Ok tend.
Proof. reflexivity. Qed.

Lemma toy_tend_key (tend : R) : at_key (toy_params tend) "tend" = any_double tend.
Proof. reflexivity. Qed.

Lemma size_t_mod_20 (n : N) : size_t_mod n 20 = Ok (n mod 20)%N.
Proof. reflexivity. Qed.

Ltac toy_cbn :=
  cbn -[update_timestep getProperty updateProperty updateProperty_tag euler
        t9_function rho_function at_key size_t_mod N.modulo
        entropy_generation_rhs].

Ltac toy_step :=
  first
    [ rewrite toy_t9_function
    | rewrite toy_rho_function
    | rewrite toy_t9_guess
    | rewrite toy_observe
    | rewrite toy_steps
    | rewrite toy_tend
    | rewrite (decide_True (P := "yes" = "yes")) by reflexivity
    | rewrite getProperty_updateProperty
    | rewrite getProperty_updateProperty_tag
    | rewrite getProperty_updateAbundances
    | rewrite getProperty_updateAbundanceChanges
    | rewrite getProperty_updateProperty_ne by discriminate ];
  toy_cbn.

(** On a zone that holds a temperature and a time, the right-hand side of
    the small engine returns [{x[1], x[1] / 3, 0}]. *)
Lemma toy_rhs_total (recommend : R -> R) (tend : R)
    (x0 : state_type) (t : R) (z : zone_t unit) (t9 time : R) :
  getProperty "t9" z = Ok t9 ->
  getProperty "time" z = Ok time ->
  exists z',
    @entropy_generation_rhs nnt_strings unit (toy_collaborators recommend)
      (@toy_functions nnt_strings recommend (toy_params tend)) tt x0 [0; 0; 0] t z
    = Ok ([get x0 1; get x0 1 / 3; 0], z')
    /\ getProperty "t9" z' = Ok t9.
Proof.
  intros Ht9 Htime.
  unfold entropy_generation_rhs.
  cbn -[getProperty updateProperty t9_function rho_function at_key].
  rewrite Ht9. toy_cbn. rewrite Htime. toy_cbn.
  repeat toy_step. rewrite Ht9. toy_cbn.
  eexists. split; [reflexivity|].
  repeat toy_step. reflexivity.
Qed.

(** On a zone that holds a temperature, a pass through the loop on the
    small engine completes: it makes the Euler step and proposes the next
    step size from the engine's recommendation. *)
Lemma toy_iteration_total (recommend : R -> R) (tend : R)
    (s : @driver_state unit (toy_collaborators recommend)) (t9 : R) :
  getProperty "t9" (zone s) = Ok t9 ->
  exists s', toy_iteration recommend tend s = Ok s'
    /\ x s' = euler (x s) [get (x s) 1; get (x s) 1 / 3; 0] (d_dt s)
    /\ d_t s' = d_t s + d_dt s
    /\ d_dt s' = update_timestep (x s') (x s) (d_t s') (d_dt s) (recommend (d_dt s)) tend
    /\ files s' = files s
    /\ (exists t9', getProperty "t9" (zone s') = Ok t9').
Proof.
  intros Ht9.
  destruct (toy_rhs_total recommend tend (x s) (d_t s)
              (updateProperty "time" (d_t s) (zone s)) t9 (d_t s))
    as (z1 & Hrhs & _).
  { rewrite getProperty_updateProperty_ne by discriminate. exact Ht9. }
  { apply getProperty_updateProperty. }
  unfold toy_iteration, iteration. toy_cbn.
  rewrite Hrhs. toy_cbn.
  repeat toy_step.
  rewrite size_t_mod_20. toy_cbn.
  destruct (decide ((i_step s mod 20)%N = 0%N)) as [Hz | Hnz].
  - toy_cbn. repeat toy_step.
    eexists. split; [reflexivity|]. toy_cbn.
    do 4 (split; [reflexivity|]).
    eexists. repeat toy_step. reflexivity.
  - toy_cbn. repeat toy_step.
    destruct (Rge_dec (d_t s + d_dt s) tend) as [Hge | Hlt].
    + toy_cbn. repeat toy_step.
      eexists. split; [reflexivity|]. toy_cbn.
      do 4 (split; [reflexivity|]).
      eexists. repeat toy_step. reflexivity.
    + toy_cbn. repeat toy_step.
      eexists. split; [reflexivity|]. toy_cbn.
      do 4 (split; [reflexivity|]).
      eexists. repeat toy_step. reflexivity.
Qed.

Lemma euler_static (dt : R) :
  euler [1; 0; 0] [get [1; 0; 0] 1; get [1; 0; 0] 1 / 3; 0] dt = [1; 0; 0].
Proof.
  unfold euler, get; simpl.
  repeat f_equal; lra.
Qed.

Lemma relative_change_static (i : nat) :
  relative_change [1; 0; 0] [1; 0; 0] i = 0.
Proof.
  unfold relative_change.
  replace (get [1; 0; 0] i - get [1; 0; 0] i) with 0 by lra.
  rewrite Rabs_R0. unfold Rdiv. apply Rmult_0_l.
Qed.

Lemma candidate_steps_static (dt : R) :
  candidate_steps [1; 0; 0] [1; 0; 0] dt = [].
Proof.
  unfold candidate_steps, candidates_at. simpl.
  rewrite !relative_change_static.
  repeat match goal with
         | |- context [Rgt_dec ?a ?b] => destruct (Rgt_dec a b)
         | |- context [Req_dec_T ?a ?b] => destruct (Req_dec_T a b)
         end; simpl; try reflexivity; contradiction.
Qed.

Lemma update_timestep_static (t dt engine_dt tend : R) :
  update_timestep [1; 0; 0] [1; 0; 0] t dt engine_dt tend
  = Rmin (Rmin 1e99 engine_dt) (tend - t).
Proof.
  rewrite update_timestep_Rmin, candidate_steps_static. reflexivity.
Qed.

(** At rest the small engine stays at rest. *)
Lemma toy_static_iteration (recommend : R -> R) (tend : R)
    (s : @driver_state unit (toy_collaborators recommend)) :
  toy_at_rest s ->
  exists s', toy_iteration recommend tend s = Ok s'
    /\ toy_at_rest s'
    /\ d_t s' = d_t s + d_dt s
    /\ d_dt s' = Rmin (Rmin 1e99 (recommend (d_dt s))) (tend - (d_t s + d_dt s)).
Proof.
  intros [[t9 Ht9] Hx].
  destruct (toy_iteration_total recommend tend s t9 Ht9)
    as (s' & Hit & Hx' & Ht & Hdt & _ & Ht9').
  rewrite Hx, euler_static in Hx'.
  rewrite Hx', Hx, Ht, update_timestep_static in Hdt.
  exists s'. repeat split; assumption.
Qed.

Lemma toy_state_at_rest (recommend : R -> R) (t dt : R) :
  toy_at_rest (toy_state recommend t dt [1; 0; 0]).
Proof. split; [exists 5; reflexivity | reflexivity]. Qed.

(** *** The step controller *)

(** C2, as stated, fails, twice.  The small engine, at rest, makes a
    first step of [1.8e99] from [t = 0] with [tend = 1e100], and its
    engine recommends [1.15] times the last step.  No component gives a
    candidate; the least of the recommendation [1.15 * 1.8e99] and of
    [tend - t] is the recommendation, and the loop proposes [1e99], the
    value [d_h] starts from.  And the step proposed can lead beyond the
    end time: in binary64, at [t = 1.82] with [tend = 3.9] and a
    recommendation of 5, the step proposed is the difference [3.9 - 1.82]
    as the subtraction rounds it, and [t + dt > tend]. *)
Lemma update_timestep_counterexample :
  (exists s' : @driver_state unit (toy_collaborators (fun dt => 1.15 * dt)),
     toy_iteration (fun dt => 1.15 * dt) 1e100 (toy_state _ 0 1.8e99 [1; 0; 0]) = Ok s'
     /\ candidate_steps (x s') [1; 0; 0] 1.8e99 = []
     /\ Rmin (1.15 * 1.8e99) (1e100 - d_t s') = 1.15 * 1.8e99
     /\ d_dt s' = 1e99
     /\ 1e99 <> 1.15 * 1.8e99)
  /\ Binary64.update_timestep [1; 0; 0]%float [1; 0; 0]%float 1.82 1.82 5 3.9
     = (3.9 - 1.82)%float
  /\ (3.9 <? 1.82 + (3.9 - 1.82))%float = true.
Proof.
  split; [| split; vm_compute; reflexivity].
  destruct (toy_static_iteration (fun dt => 1.15 * dt) 1e100
              (toy_state _ 0 1.8e99 [1; 0; 0]) (toy_state_at_rest _ 0 1.8e99))
    as (s' & Hit & [_ Hx'] & Ht' & Hdt').
  simpl in Ht', Hdt'.
  exists s'. split; [exact Hit|].
  split; [rewrite Hx'; apply candidate_steps_static|].
  split; [rewrite Ht'; apply Rmin_left; lra|].
  split; [| lra].
  rewrite Hdt'. rewrite (Rmin_left 1e99 (1.15 * 1.8e99)) by lra.
  apply Rmin_left. lra.
Qed.

Lemma relative_change_example_0 : relative_change [4; 4; 0] [1; 3; 0] 0 = 3 / 4.
Proof.
  unfold relative_change, get; simpl.
  rewrite (Rabs_pos_eq (4 - 1)) by lra. rewrite (Rabs_pos_eq 4) by lra. lra.
Qed.

Lemma relative_change_example_1 : relative_change [4; 4; 0] [1; 3; 0] 1 = 1 / 4.
Proof.
  unfold relative_change, get; simpl.
  rewrite (Rabs_pos_eq (4 - 3)) by lra. rewrite (Rabs_pos_eq 4) by lra. lra.
Qed.

(** The candidates after a step of 1 from [{1, 3, 0}] to [{4, 4, 0}]: one
    for each of the first two components; the third is below its floor. *)
Lemma candidate_steps_example :
  candidate_steps [4; 4; 0] [1; 3; 0] 1 = [0.15 * 1 / (3 / 4); 0.15 * 1 / (1 / 4)].
Proof.
  unfold candidate_steps, candidates_at. simpl.
  rewrite relative_change_example_0, relative_change_example_1.
  unfold get, x_lim; simpl.
  rewrite (Rabs_pos_eq 4) by lra. rewrite Rabs_R0.
  destruct (Rgt_dec 4 1e-10) as [_ | H]; [| lra].
  destruct (Rgt_dec 4 1) as [_ | H]; [| lra].
  destruct (Rgt_dec 0 1e-5) as [H | _]; [lra |].
  destruct (Req_dec_T (3 / 4) 0) as [H | _]; [lra |].
  destruct (Req_dec_T (1 / 4) 0) as [H | _]; [lra |].
  reflexivity.
Qed.

Lemma euler_example :
  euler [1; 3; 0] [get [1; 3; 0] 1; get [1; 3; 0] 1 / 3; 0] 1 = [4; 4; 0].
Proof. unfold euler, get; simpl. repeat f_equal; lra. Qed.

(** A pass of the small engine from [t = 0] and [x = {1, 3, 0}] with
    [dt = 1] and [tend = 10], the engine recommending [1.15 * dt]: the
    state becomes [{4, 4, 0}], the first two components give the
    candidates [0.15 / (3/4)] and [0.15 / (1/4)], and the step proposed is
    the first of them, the least. *)
Lemma iteration_next_step_witness :
  exists s' : @driver_state unit (toy_collaborators (fun dt => 1.15 * dt)),
    toy_iteration (fun dt => 1.15 * dt) 10 (toy_state _ 0 1 [1; 3; 0]) = Ok s'
    /\ x s' = [4; 4; 0]
    /\ (exists m : R,
          m = Rmin (minimum 1e99 [0.15 * 1 / (3 / 4); 0.15 * 1 / (1 / 4)]) (1.15 * 1)
          /\ xold s' = [1; 3; 0]
          /\ d_dt s' = if Rgt_dec (d_t s' + m) 10 then 10 - d_t s' else m)
    /\ d_dt s' = 0.15 * 1 / (3 / 4).
Proof.
  destruct (toy_iteration_total (fun dt => 1.15 * dt) 10
              (toy_state _ 0 1 [1; 3; 0]) 5 eq_refl)
    as (s' & Hit & Hx & Ht & _).
  cbn [x d_dt d_t toy_state] in Hx, Ht. rewrite euler_example in Hx.
  pose proof (@iteration_next_step nnt_strings unit
                (toy_collaborators (fun dt => 1.15 * dt))
                (@toy_functions nnt_strings (fun dt => 1.15 * dt) (toy_params 10))
                (toy_params 10) None "output.xml"
                (toy_state _ 0 1 [1; 3; 0]) s' 10 (toy_tend_key 10) Hit) as Hnext.
  cbn [x d_dt d_t toy_state] in Hnext.
  rewrite Hx, candidate_steps_example in Hnext.
  change (Libnucnet__Zone__updateTimeStep (zone s') 1 D_REG_T D_REG_Y D_Y_MIN_DT)
    with (1.15 * 1) in Hnext.
  exists s'. split; [exact Hit|]. split; [exact Hx|]. split; [exact Hnext|].
  destruct Hnext as (m & Hm & _ & Hdt).
  assert (m = 0.15 * 1 / (3 / 4)) as Hm'.
  { rewrite Hm. unfold minimum; simpl.
    rewrite (Rmin_left (0.15 * 1 / (1 / 4)) 1e99) by lra.
    rewrite (Rmin_left (0.15 * 1 / (3 / 4)) (0.15 * 1 / (1 / 4))) by lra.
    apply Rmin_left. lra. }
  rewrite Hdt, Hm', Ht.
  destruct (Rgt_dec (0 + 1 + 0.15 * 1 / (3 / 4)) 10); [lra | reflexivity].
Defined.

(** *** The first step *)

(** From [t = 0] with [dt = 20] and [tend = 10] the small engine makes one
    step, to [t = 20]. *)
Lemma first_step_not_clamped_witness :
  exists s' : @driver_state unit (toy_collaborators (fun dt => dt)),
    toy_iteration (fun dt => dt) 10 (toy_state _ 0 20 [1; 0; 0]) = Ok s'
    /\ d_t s' = 0 + 20
    /\ 10 < d_t s'
    /\ forall fuel,
         toy_stepping (fun dt => dt) 10 (S fuel) (toy_state _ 0 20 [1; 0; 0])
         = Finished s'.
Proof.
  destruct (toy_iteration_total (fun dt => dt) 10
              (toy_state _ 0 20 [1; 0; 0]) 5 eq_refl)
    as (s' & Hit & _).
  exists s'. split; [exact Hit|].
  apply (@first_step_not_clamped nnt_strings unit (toy_collaborators (fun dt => dt))
           (@toy_functions nnt_strings (fun dt => dt) (toy_params 10))
           (toy_params 10) None "output.xml"
           (toy_state _ 0 20 [1; 0; 0]) s' 10 (toy_tend_key 10)).
  - simpl. lra.
  - simpl. lra.
  - exact Hit.
Defined.

(** *** The sign of [x[0]] *)



(** *** Termination *)

(** With an engine that recommends half of the last step, the time stays
    below 2. *)
Lemma halving_never_finishes (fuel : nat)
    (s : @driver_state unit (toy_collaborators (fun dt => dt / 2))) :
  toy_at_rest s -> 0 < d_dt s -> 0 <= d_t s -> d_t s + 2 * d_dt s = 2 ->
  toy_stepping (fun dt => dt / 2) 4 fuel s = OutOfFuel.
Proof.
  revert s. induction fuel as [| fuel IH]; intros s Hrest Hdt Ht Hsum;
    unfold toy_stepping;
    rewrite (@stepping_unfold nnt_strings unit (toy_collaborators (fun dt => dt / 2))
               (@toy_functions nnt_strings (fun dt => dt / 2) (toy_params 4))
               (toy_params 4) None "output.xml" 4 _ s (toy_tend_key 4));
    destruct (Rlt_dec (d_t s) 4) as [Hlt | Hge]; try lra; try reflexivity.
  destruct (toy_static_iteration (fun dt => dt / 2) 4 s Hrest)
    as (s' & Hit & Hrest' & Ht' & Hdt').
  unfold toy_iteration in Hit. rewrite Hit.
  assert (d_dt s' = d_dt s / 2) as Hhalf.
  { rewrite Hdt'. rewrite (Rmin_right 1e99 (d_dt s / 2)) by lra.
    apply Rmin_left. lra. }
  apply IH; [exact Hrest' | lra | lra | lra].
Qed.

(** C6, as stated, fails.  The small engine starts at [t = 0 < 4 = tend]
    with the positive step 1; the engine recommends half of the last step
    each time, the steps are 1, 1/2, 1/4, ..., the time stays below 2, and
    no number of passes ends the loop: the output file is never written. *)
Lemma stepping_counterexample :
  d_t (toy_state (fun dt => dt / 2) 0 1 [1; 0; 0]) < 4
  /\ 0 < d_dt (toy_state (fun dt => dt / 2) 0 1 [1; 0; 0])
  /\ forall fuel,
       toy_evolve_and_write (fun dt => dt / 2) 4 fuel (toy_state _ 0 1 [1; 0; 0])
       = OutOfFuel.
Proof.
  split; [simpl; lra|]. split; [simpl; lra|].
  intros fuel. unfold toy_evolve_and_write, evolve_and_write.
  fold (toy_stepping (fun dt => dt / 2) 4 fuel
          (toy_state (fun dt => dt / 2) 0 1 [1; 0; 0])).
  rewrite halving_never_finishes;
    [reflexivity | apply toy_state_at_rest | simpl; lra | simpl; lra | simpl; lra].
Qed.

Lemma toy_steady_preserved (tend : R)
    (s : @driver_state unit (toy_collaborators (fun _ => 1))) :
  toy_steady tend s -> d_t s < tend ->
  exists s', toy_iteration (fun _ => 1) tend s = Ok s' /\ toy_steady tend s'
             /\ (1 <= d_t s' - d_t s \/ ~ d_t s' < tend).
Proof.
  intros [Hrest Hstep] Hlt.
  destruct (toy_static_iteration (fun _ => 1) tend s Hrest)
    as (s' & Hit & Hrest' & Ht' & Hdt').
  exists s'. split; [exact Hit|].
  split; [split; [exact Hrest'|] |].
  - rewrite Hdt', Ht'. rewrite (Rmin_right 1e99 1) by lra.
    unfold Rmin.
    destruct (Rle_dec 1 (tend - (d_t s + d_dt s))); [left; lra | right; lra].
  - rewrite Ht'. destruct Hstep as [Hbig | Hreach]; [left; lra | right; lra].
Qed.

(** With an engine that always recommends the step 1, the small engine run
    from [t = 0] to [tend = 3] advances by 1 in each pass, leaves the loop
    and writes [output.xml] once. *)
Lemma evolve_and_write_terminates_witness :
  (exists (fuel : nat) (s' : @driver_state unit (toy_collaborators (fun _ => 1))),
     toy_evolve_and_write (fun _ => 1) 3 fuel (toy_state _ 0 1 [1; 0; 0]) = Finished s')
  /\ (forall (fuel : nat) (s' : @driver_state unit (toy_collaborators (fun _ => 1))),
        toy_evolve_and_write (fun _ => 1) 3 fuel (toy_state _ 0 1 [1; 0; 0])
        = Finished s' ->
        ~ d_t s' < 3
        /\ files s' = [] ++ [("output.xml", p_my_output s')]).
Proof.
  apply (@evolve_and_write_terminates nnt_strings unit (toy_collaborators (fun _ => 1))
           (@toy_functions nnt_strings (fun _ => 1) (toy_params 3))
           (toy_params 3) None "output.xml"
           (toy_steady 3) 1 3 (toy_state _ 0 1 [1; 0; 0]) (toy_tend_key 3)).
  - lra.
  - intros s HInv Hlt. exact (toy_steady_preserved 3 s HInv Hlt).
  - split; [apply toy_state_at_rest | left; simpl; lra].
Defined.

(** * Further properties *)

(** ** The command line *)

(** X1.  [at_option_parser] recognises exactly the arguments that begin
    with ['@']: such an argument [@name] is turned into the option
    [response_file] with the value [name], the rest of the argument; for
    every other argument, the empty one among them, the parser returns the
    pair of empty strings, which leaves the argument to the standard
    parser. *)
Theorem at_option_parser_spec (s : string) :
  (exists name, s = String at_sign name
                /\ at_option_parser s = (S_RESPONSE_FILE, name))
  \/ ((forall name, s <> String at_sign name)
      /\ at_option_parser s = (EmptyString, EmptyString)).
Proof.
  destruct s as [| c rest]; unfold at_option_parser.
  - right. split; [intros name E; discriminate E | reflexivity].
  - destruct (Ascii.eqb at_sign c) eqn:Ec.
    + apply Ascii.eqb_eq in Ec. subst c. left. exists rest. split; reflexivity.
    + right. split; [| reflexivity].
      intros name E. injection E as -> _.
      rewrite Ascii.eqb_refl in Ec. discriminate Ec.
Qed.

(** X2.  With a string stored under [program_options], the function
    [program_options] always ends the process, and it ends it with
    [EXIT_SUCCESS] exactly when the string is one of [help], [general],
    [network], [user] and [all]; every other string ends it with
    [EXIT_FAILURE]. *)
Theorem program_options_status
    (vmap : variables_map) (help general network user all s : string) :
  at_key vmap S_PROGRAM_OPTIONS = any_string s ->
  exists e : exited,
    program_options vmap help general network user all = Ok e
    /\ (status e = EXIT_SUCCESS
        <-> s ∈ ["help"; "general"; "network"; "user"; "all"]).
Proof.
  intros E. unfold program_options. rewrite E. simpl.
  repeat case_decide; eexists; (split; [reflexivity|]); simpl;
    rewrite !elem_of_cons, elem_of_nil;
    split; try tauto; try discriminate.
Qed.

(** The request [--program_options user]. *)
Lemma program_options_status_witness :
  exists e : exited,
    program_options (<["program_options" := any_string "user"]> ∅)
      "Help Options" "General options" "Network options" "User-defined options"
      "All Allowed Options" = Ok e
    /\ (status e = EXIT_SUCCESS
        <-> "user" ∈ ["help"; "general"; "network"; "user"; "all"]).
Proof.
  apply (program_options_status (<["program_options" := any_string "user"]> ∅)).
  reflexivity.
Defined.

(** ** The configuration *)

Lemma at_key_Some (m : gmap string any) (key : string) (a : any) :
  at_key m key = a -> a <> any_empty -> m !! key = Some a.
Proof.
  unfold at_key. destruct (m !! key); simpl; intros E Hne;
    [f_equal; exact E | symmetry in E; contradiction].
Qed.

Lemma at_key_double_lookup (m : gmap string any) (key : string) (d : R) :
  at_key m key = any_double d -> m !! key = Some (any_double d).
Proof. intros E. apply (at_key_Some m key _ E). discriminate. Qed.

Lemma any_cast_size_t_Ok (a : any) (n : N) :
  any_cast_size_t a = Ok n -> a = any_size_t n.
Proof. destruct a; simpl; intros E; try discriminate E. injection E as ->. reflexivity. Qed.

Lemma any_cast_string_Ok (a : any) (s : string) :
  any_cast_string a = Ok s -> a = any_string s.
Proof. destruct a; simpl; intros E; try discriminate E. injection E as ->. reflexivity. Qed.

Section ConfigurationFurther.
Context `{sd : string_defs}.

Lemma as_double_cases (vmap : variables_map) (key : string) :
  (exists d, at_key vmap key = any_double d /\ as_double vmap key = Ok d)
  \/ ((forall d, at_key vmap key <> any_double d)
      /\ as_double vmap key = Throw bad_any_cast).
Proof.
  unfold as_double. destruct (at_key vmap key); simpl; eauto;
    right; (split; [intros d E; discriminate E | reflexivity]).
Qed.

(** What [set_user_defined_options] has read and written when it
    returns. *)
Lemma set_user_defined_options_Ok_inv
    (vmap : variables_map) (param_map param_map' : param_map_t) :
  set_user_defined_options vmap param_map = Ok param_map' ->
  exists t9_0 rho_0 rho_1 tau delta factor rho_2 : R,
    at_key vmap s_T9_0 = any_double t9_0
    /\ at_key vmap s_RHO_0 = any_double rho_0
    /\ at_key vmap S_RHO_1 = any_double rho_1
    /\ at_key vmap s_TAU = any_double tau
    /\ at_key vmap S_DELTA_TRAJ = any_double delta
    /\ at_key vmap S_ROOT_FACTOR = any_double factor
    /\ param_map' =
       <[S_RHO_2 := any_double rho_2]>
       (<[S_ROOT_FACTOR := any_double factor]>
       (<[S_DELTA_TRAJ := any_double delta]>
       (<[s_TAU := any_double tau]>
       (<[S_RHO_1 := any_double rho_1]>
       (<[s_RHO_0 := any_double rho_0]>
       (<[s_T9_0 := any_double t9_0]> param_map)))))).
Proof.
  intros H. unfold set_user_defined_options, as_double in H.
  bind_inv H as t9_0 E1. bind_inv H as rho_0 E2. bind_inv H as rho_1 E3.
  bind_inv H as tau E4. bind_inv H as delta E5. bind_inv H as factor E6.
  bind_inv H as r1 E7. bind_inv H as r0 E8.
  destruct (Rgt_dec r1 r0); [discriminate H|].
  bind_inv H as r0' E9. bind_inv H as r1' E10.
  injection H as <-.
  apply any_cast_double_Ok in E1, E2, E3, E4, E5, E6.
  exists t9_0, rho_0, rho_1, tau, delta, factor, (r0' - r1'). auto 10.
Qed.

(** The two ways in which [set_user_defined_options] fails. *)
Lemma set_user_defined_options_Throw
    (vmap : variables_map) (param_map : param_map_t) (e : exn) :
  set_user_defined_options vmap param_map = Throw e ->
  e = bad_any_cast \/ e = exit_failure "rho_1 must be less than rho_0.".
Proof.
  unfold set_user_defined_options, as_double.
  repeat match goal with
         | |- context [any_cast_double ?a ≫= _] =>
             let E := fresh "E" in
             destruct (any_cast_double a) as [? | ?] eqn:E; simpl;
             [| apply any_cast_double_Throw in E; intros H; injection H as <-;
                left; exact E ]
         | |- context [Rgt_dec ?a ?b] => destruct (Rgt_dec a b)
         end;
    intros H; try discriminate H; injection H as <-; right; reflexivity.
Qed.

Lemma user_option_keys_distinct :
  NoDup (S_RHO_2 :: user_options) ->
  S_RHO_2 <> s_T9_0 /\ S_RHO_2 <> s_RHO_0 /\ S_RHO_2 <> s_TAU
  /\ s_T9_0 <> s_RHO_0 /\ s_T9_0 <> S_RHO_1 /\ s_T9_0 <> s_TAU
  /\ s_T9_0 <> S_DELTA_TRAJ /\ s_T9_0 <> S_ROOT_FACTOR
  /\ s_RHO_0 <> S_RHO_1 /\ s_RHO_0 <> s_TAU
  /\ s_RHO_0 <> S_DELTA_TRAJ /\ s_RHO_0 <> S_ROOT_FACTOR
  /\ S_RHO_1 <> s_TAU /\ s_TAU <> S_DELTA_TRAJ /\ s_TAU <> S_ROOT_FACTOR.
Proof.
  unfold user_options.
  rewrite !NoDup_cons, !not_elem_of_cons. tauto.
Qed.

(** X3.  [set_user_defined_options] writes the six user options and
    [rho_2] only: every other entry of the parameter map, those that
    [get_input] has stored before the call among them, is left as it is. *)
Theorem set_user_defined_options_frame
    (vmap : variables_map) (param_map param_map' : param_map_t) (key : string) :
  set_user_defined_options vmap param_map = Ok param_map' ->
  key ∉ S_RHO_2 :: user_options ->
  param_map' !! key = param_map !! key.
Proof.
  intros H Hkey.
  destruct (set_user_defined_options_Ok_inv _ _ _ H)
    as (t9_0 & rho_0 & rho_1 & tau & delta & factor & rho_2
        & _ & _ & _ & _ & _ & _ & ->).
  unfold user_options in Hkey. rewrite !not_elem_of_cons in Hkey.
  destruct Hkey as (? & ? & ? & ? & ? & ? & ? & _).
  rewrite !lookup_insert_ne by congruence. reflexivity.
Qed.

(** X4.  [set_user_defined_options] is idempotent: applied again, with the
    same options, to the parameter map it has returned, it returns that
    map unchanged. *)
Theorem set_user_defined_options_idempotent
    (vmap : variables_map) (param_map param_map' : param_map_t) :
  NoDup (S_RHO_2 :: user_options) ->
  set_user_defined_options vmap param_map = Ok param_map' ->
  set_user_defined_options vmap param_map' = Ok param_map'.
Proof.
  intros Hnd H.
  destruct (set_user_defined_options_Ok_inv _ _ _ H)
    as (t9_0 & rho_0 & rho_1 & tau & delta & factor & rho_2
        & A1 & A2 & A3 & A4 & A5 & A6 & _).
  apply at_key_double_lookup in A1, A2, A3, A4, A5, A6.
  rewrite (set_user_defined_options_unfold vmap param_map _ _ _ _ _ _
             Hnd A1 A2 A3 A4 A5 A6) in H.
  rewrite (set_user_defined_options_unfold vmap param_map' _ _ _ _ _ _
             Hnd A1 A2 A3 A4 A5 A6).
  destruct (Rgt_dec rho_1 rho_0); [discriminate H|].
  injection H as H. f_equal.
  destruct (user_option_keys_distinct Hnd)
    as (? & ? & ? & ? & ? & ? & ? & ? & ? & ? & ? & ? & ? & ? & ?).
  assert (S_RHO_2 <> S_RHO_1) by discriminate.
  assert (S_RHO_2 <> S_DELTA_TRAJ) by discriminate.
  assert (S_RHO_2 <> S_ROOT_FACTOR) by discriminate.
  assert (S_RHO_1 <> S_DELTA_TRAJ) by discriminate.
  assert (S_RHO_1 <> S_ROOT_FACTOR) by discriminate.
  assert (S_DELTA_TRAJ <> S_ROOT_FACTOR) by discriminate.
  rewrite (insert_id param_map' s_T9_0)
    by (subst param_map'; simplify_map_eq; reflexivity).
  rewrite (insert_id param_map' s_RHO_0)
    by (subst param_map'; simplify_map_eq; reflexivity).
  rewrite (insert_id param_map' S_RHO_1)
    by (subst param_map'; simplify_map_eq; reflexivity).
  rewrite (insert_id param_map' s_TAU)
    by (subst param_map'; simplify_map_eq; reflexivity).
  rewrite (insert_id param_map' S_DELTA_TRAJ)
    by (subst param_map'; simplify_map_eq; reflexivity).
  rewrite (insert_id param_map' S_ROOT_FACTOR)
    by (subst param_map'; simplify_map_eq; reflexivity).
  apply insert_id. subst param_map'. simplify_map_eq. reflexivity.
Qed.

(** X5.  When one of the six user options is not stored as a [double],
    [set_user_defined_options] throws [boost::bad_any_cast]: the test of
    [rho_1 > rho_0] is not reached and no message is written. *)
Theorem set_user_defined_options_missing_option
    (vmap : variables_map) (param_map : param_map_t) (key : string) :
  key ∈ user_options ->
  (forall d, at_key vmap key <> any_double d) ->
  set_user_defined_options vmap param_map = Throw bad_any_cast.
Proof.
  intros Hin Hno. unfold set_user_defined_options.
  destruct (as_double_cases vmap s_T9_0) as [(d1 & A1 & E1) | [_ E1]];
    rewrite E1; simpl; [| reflexivity].
  destruct (as_double_cases vmap s_RHO_0) as [(d2 & A2 & E2) | [_ E2]];
    rewrite E2; simpl; [| reflexivity].
  destruct (as_double_cases vmap S_RHO_1) as [(d3 & A3 & E3) | [_ E3]];
    rewrite E3; simpl; [| reflexivity].
  destruct (as_double_cases vmap s_TAU) as [(d4 & A4 & E4) | [_ E4]];
    rewrite E4; simpl; [| reflexivity].
  destruct (as_double_cases vmap S_DELTA_TRAJ) as [(d5 & A5 & E5) | [_ E5]];
    rewrite E5; simpl; [| reflexivity].
  destruct (as_double_cases vmap S_ROOT_FACTOR) as [(d6 & A6 & E6) | [_ E6]];
    rewrite E6; simpl; [| reflexivity].
  exfalso. unfold user_options in Hin.
  rewrite !elem_of_cons, elem_of_nil in Hin.
  destruct Hin as [-> | [-> | [-> | [-> | [-> | [-> | []]]]]]];
    eapply Hno; eassumption.
Qed.
End ConfigurationFurther.

(** The default options are accepted, whatever the parameter map holds. *)
Lemma default_options_accepted (param_map : param_map_t) :
  exists param_map',
    @set_user_defined_options nnt_strings default_vmap param_map = Ok param_map'.
Proof.
  rewrite (@set_user_defined_options_unfold nnt_strings default_vmap param_map
             10 1e8 9e7 0.1 0.1 1.001 nnt_user_options_distinct
             eq_refl eq_refl eq_refl eq_refl eq_refl eq_refl).
  destruct (Rgt_dec 9e7 1e8) as [Hgt | _]; [lra | eauto].
Qed.

(** The default options leave the initial time of the parameter map
    alone. *)
Lemma set_user_defined_options_frame_witness :
  exists param_map',
    @set_user_defined_options nnt_strings default_vmap (<["time" := any_double 0]> ∅)
    = Ok param_map'
    /\ param_map' !! "time" = (<["time" := any_double 0]> ∅ : param_map_t) !! "time".
Proof.
  destruct (default_options_accepted (<["time" := any_double 0]> ∅)) as [param_map' H].
  exists param_map'. split; [exact H|].
  apply (@set_user_defined_options_frame nnt_strings default_vmap _ _ "time" H).
  unfold user_options; simpl.
  rewrite !not_elem_of_cons. repeat split; try discriminate.
  apply not_elem_of_nil.
Defined.

(** The default options, applied twice. *)
Lemma set_user_defined_options_idempotent_witness :
  exists param_map',
    @set_user_defined_options nnt_strings default_vmap ∅ = Ok param_map'
    /\ @set_user_defined_options nnt_strings default_vmap param_map' = Ok param_map'.
Proof.
  destruct (default_options_accepted ∅) as [param_map' H].
  exists param_map'. split; [exact H|].
  exact (@set_user_defined_options_idempotent nnt_strings default_vmap ∅ param_map'
           nnt_user_options_distinct H).
Defined.

(** The default options without [tau]. *)
Lemma set_user_defined_options_missing_option_witness :
  @set_user_defined_options nnt_strings (delete "tau" default_vmap) ∅
  = Throw bad_any_cast.
Proof.
  apply (@set_user_defined_options_missing_option nnt_strings
           (delete "tau" default_vmap) ∅ "tau").
  - unfold user_options; simpl. rewrite !elem_of_cons. auto.
  - intros d E. discriminate E.
Defined.

(** ** [get_input] *)

Section GetInputProperties.
Context `{sd : string_defs} `{rd : run_string_defs}.

Ltac key_ne := first [assumption | apply not_eq_sym; assumption | discriminate].

Ltac lookup_key :=
  repeat (rewrite lookup_insert_ne by key_ne);
  try (rewrite lookup_insert_eq).

(** X6.  When [get_input] returns, the parameter map holds each general
    and user option with the value the option parser has stored, which is
    of the option's type; the entries under other keys (the network and
    the view) are as they were made; and so the casts of the loop of
    [main] on [tend], [steps], [t9_guess] and [observe] find the types
    they ask for. *)
Theorem get_other_data_spec (vm : variables_map) (param_map param_map' : param_map_t) :
  NoDup all_options ->
  get_other_data vm param_map = Ok param_map' ->
  (forall key, key ∈ run_options ++ user_options ->
     param_map' !! key = vm !! key /\ at_key vm key <> any_empty)
  /\ (forall key, key ∉ all_options -> param_map' !! key = param_map !! key)
  /\ (exists (tend : R) (steps : N) (guess observe : string),
        at_key param_map' s_TEND = any_double tend
        /\ at_key param_map' s_STEPS = any_size_t steps
        /\ at_key param_map' S_T9_GUESS = any_string guess
        /\ at_key param_map' S_OBSERVE = any_string observe).
Proof.
  intros Hnd H. unfold get_other_data, as_double, as_size_t, as_string in H.
  bind_inv H as time E1. bind_inv H as dt E2. bind_inv H as tend E3.
  bind_inv H as steps E4. bind_inv H as scr E5. bind_inv H as nse E6.
  bind_inv H as guess E7. bind_inv H as observe E8. bind_inv H as mu E9.
  destruct (set_user_defined_options_Ok_inv _ _ _ H)
    as (t9_0 & rho_0 & rho_1 & tau & delta & factor & rho_2
        & A1 & A2 & A3 & A4 & A5 & A6 & ->).
  clear H.
  apply any_cast_double_Ok in E1, E2, E3.
  apply any_cast_size_t_Ok in E4.
  apply any_cast_string_Ok in E5, E6, E7, E8, E9.
  unfold all_options, run_options, user_options in Hnd. simpl in Hnd.
  rewrite !NoDup_cons, !not_elem_of_cons in Hnd.
  destruct_and!.
  split; [| split].
  - intros key Hk. unfold run_options, user_options in Hk. simpl in Hk.
    rewrite !elem_of_cons, elem_of_nil in Hk.
    destruct_or!; try contradiction; subst key.
    all: match goal with
         | E : at_key ?m ?k = ?a |- _ !! ?k = ?m !! ?k /\ _ =>
             rewrite E; split; [| discriminate];
             rewrite (at_key_Some m k a E) by discriminate
         end.
    all: lookup_key; reflexivity.
  - intros key Hk. unfold all_options, run_options, user_options in Hk. simpl in Hk.
    rewrite !not_elem_of_cons in Hk. destruct_and!.
    rewrite !lookup_insert_ne by congruence. reflexivity.
  - exists tend, steps, guess, observe. unfold at_key.
    split; [| split; [| split]]; lookup_key; reflexivity.
Qed.

(** X7.  No exception leaves [get_input] from "Get other data" on: a call
    that does not return ends the process with [EXIT_FAILURE], either with
    the message of [set_user_defined_options] or, the failed cast of an
    option being caught, with [error: ] and the text of
    [boost::bad_any_cast]. *)
Theorem get_input_data_failure
    (what : exn -> string) (vm : variables_map) (param_map : param_map_t) (e : exn) :
  get_input_data what vm param_map = Throw e ->
  e = exit_failure "rho_1 must be less than rho_0."
  \/ e = exit_failure ("error: " ++ what bad_any_cast ++ endl).
Proof.
  unfold get_input_data, get_input_handlers.
  destruct (get_other_data vm param_map) as [pm | e'] eqn:H; [intros E; discriminate E|].
  assert (e' = bad_any_cast \/ e' = exit_failure "rho_1 must be less than rho_0.") as He.
  { unfold get_other_data, as_double, as_size_t, as_string in H.
    repeat match type of H with
           | context [any_cast_double ?a ≫= _] =>
               let E := fresh "E" in
               destruct (any_cast_double a) as [? | ?] eqn:E; simpl in H;
               [| apply any_cast_double_Throw in E; injection H as <-; left; exact E ]
           | context [any_cast_size_t ?a ≫= _] =>
               destruct a; simpl in H; try (injection H as <-; left; reflexivity)
           | context [any_cast_string ?a ≫= _] =>
               destruct a; simpl in H; try (injection H as <-; left; reflexivity)
           end.
    exact (set_user_defined_options_Throw _ _ _ H). }
  destruct He as [-> | ->]; intros E; injection E as <-; auto.
Qed.
End GetInputProperties.

Lemma nnt_all_options_distinct :
  NoDup (@all_options nnt_strings nnt_run_strings).
Proof. unfold all_options, run_options, user_options; simpl. compute_done. Qed.

(** The default options of a run are accepted. *)
Lemma default_run_options_accepted :
  exists param_map',
    @get_other_data nnt_strings nnt_run_strings default_run_vmap ∅ = Ok param_map'.
Proof.
  unfold get_other_data.
  change (@as_double default_run_vmap (@s_TIME nnt_strings)) with (Ok 0 : result R).
  change (@as_double default_run_vmap (@s_DTIME nnt_strings)) with (Ok 1e-15 : result R).
  change (@as_double default_run_vmap (@s_TEND nnt_strings)) with (Ok 10 : result R).
  change (@as_size_t default_run_vmap (@s_STEPS nnt_strings)) with (Ok 20%N : result N).
  change (@as_string default_run_vmap (@s_USE_SCREENING nnt_run_strings))
    with (Ok "no" : result string).
  change (@as_string default_run_vmap (@s_USE_NSE_CORRECTION nnt_run_strings))
    with (Ok "no" : result string).
  change (@as_string default_run_vmap S_T9_GUESS) with (Ok "yes" : result string).
  change (@as_string default_run_vmap S_OBSERVE) with (Ok "no" : result string).
  change (@as_string default_run_vmap (@s_MU_NUE_KT nnt_run_strings))
    with (Ok "-inf" : result string).
  cbn [mbind result_bind].
  rewrite (@set_user_defined_options_unfold nnt_strings default_run_vmap _
             10 1e8 9e7 0.1 0.1 1.001 nnt_user_options_distinct
             eq_refl eq_refl eq_refl eq_refl eq_refl eq_refl).
  destruct (Rgt_dec 9e7 1e8) as [Hgt | _]; [lra | eauto].
Qed.

(** The default options of a run. *)
Lemma get_other_data_spec_witness :
  exists param_map',
    @get_other_data nnt_strings nnt_run_strings default_run_vmap ∅ = Ok param_map'
    /\ (forall key, key ∈ @run_options nnt_strings nnt_run_strings
                            ++ @user_options nnt_strings ->
          param_map' !! key = default_run_vmap !! key
          /\ at_key default_run_vmap key <> any_empty)
    /\ (forall key, key ∉ @all_options nnt_strings nnt_run_strings ->
          param_map' !! key = (∅ : param_map_t) !! key)
    /\ (exists (tend : R) (steps : N) (guess observe : string),
          at_key param_map' "tend" = any_double tend
          /\ at_key param_map' "steps" = any_size_t steps
          /\ at_key param_map' "t9_guess" = any_string guess
          /\ at_key param_map' "observe" = any_string observe).
Proof.
  destruct default_run_options_accepted as [param_map' H].
  exists param_map'. split; [exact H|].
  exact (@get_other_data_spec nnt_strings nnt_run_strings default_run_vmap ∅ param_map'
           nnt_all_options_distinct H).
Defined.

(** Without any option stored, the first cast fails and is reported. *)
Lemma get_input_data_failure_witness :
  @get_input_data nnt_strings nnt_run_strings (fun _ => "bad any cast") ∅ ∅
  = Throw (exit_failure ("error: " ++ "bad any cast" ++ endl))
  /\ (exit_failure ("error: " ++ "bad any cast" ++ endl)
      = exit_failure "rho_1 must be less than rho_0."
      \/ exit_failure ("error: " ++ "bad any cast" ++ endl)
         = exit_failure ("error: " ++ "bad any cast" ++ endl)).
Proof.
  split; [reflexivity|].
  apply (@get_input_data_failure nnt_strings nnt_run_strings
           (fun _ => "bad any cast") ∅ ∅).
  reflexivity.
Defined.

(** ** Density and temperature *)

Section DensityFurther.
Context `{sd : string_defs} {engine_state : Type} {C : collaborators engine_state}.

(** X8.  [rho_function] fails exactly when the parameter map holds no
    [double] under [rho_0], whatever the state is, and it then fails with
    [boost::bad_any_cast]. *)
Theorem rho_function_failure (param_map : param_map_t) (x0 : state_type) :
  ((exists e, rho_function param_map x0 = Throw e)
   <-> forall d, at_key param_map s_RHO_0 <> any_double d)
  /\ forall e, rho_function param_map x0 = Throw e -> e = bad_any_cast.
Proof.
  unfold rho_function.
  destruct (at_key param_map s_RHO_0) eqn:E; simpl; split;
    try (split; [intros _ d' Hd; discriminate Hd | intros _; eexists; reflexivity]);
    try (intros e' He; injection He as <-; reflexivity).
  - split; [intros [e' He]; discriminate He | intros H; exfalso; exact (H d eq_refl)].
  - intros e' He. discriminate He.
Qed.

(** X11.  [t9_function] hands the temperature of the zone, as the guess,
    and [root_factor], as the factor, to the root finder and returns what
    the root finder returns.  Without a temperature in the zone it fails
    with the missing property, without a [double] under [root_factor] it
    fails with [boost::bad_any_cast], and in both cases the root finder is
    not called; when both are missing, which of the two failures is seen
    depends on the order in which the implementation evaluates the
    arguments of the call. *)
Theorem t9_function_cases
    (z : zone_t engine_state) (param_map : param_map_t) (p_view : NetView) :
  (exists guess factor, properties z !! (s_T9, None) = Some guess
      /\ at_key param_map S_ROOT_FACTOR = any_double factor
      /\ t9_function z param_map p_view = compute_1d_root p_view guess factor z)
  \/ (properties z !! (s_T9, None) = None
      /\ (exists factor, at_key param_map S_ROOT_FACTOR = any_double factor)
      /\ t9_function z param_map p_view = Throw (property_not_found s_T9))
  \/ (exists guess, properties z !! (s_T9, None) = Some guess
      /\ (forall d, at_key param_map S_ROOT_FACTOR <> any_double d)
      /\ t9_function z param_map p_view = Throw bad_any_cast)
  \/ (properties z !! (s_T9, None) = None
      /\ (forall d, at_key param_map S_ROOT_FACTOR <> any_double d)
      /\ t9_function z param_map p_view =
         Throw (if arguments_right_to_left then bad_any_cast
                else property_not_found s_T9)).
Proof.
  unfold t9_function, getProperty.
  destruct (properties z !! (s_T9, None)) as [guess |];
    destruct (at_key param_map S_ROOT_FACTOR) as [| factor | n | t | t] eqn:E;
    destruct arguments_right_to_left; simpl;
    try (left; exists guess, factor; auto; fail);
    try (right; left; split; [reflexivity|]; split; [eauto | reflexivity]; fail);
    try (right; right; left; exists guess; split; [reflexivity|];
         split; [intros d' Hd; discriminate Hd | reflexivity]; fail);
    (right; right; right; split; [reflexivity|];
     split; [intros d' Hd; discriminate Hd | reflexivity]).
Qed.
End DensityFurther.

(** Without [rho_0] in the parameter map. *)
Lemma rho_function_failure_witness :
  exists e, @rho_function nnt_strings ∅ [1; 0; 0] = Throw e.
Proof.
  apply (proj1 (@rho_function_failure nnt_strings ∅ [1; 0; 0])).
  intros d E. discriminate E.
Defined.

(** ** The right-hand side, further *)

Section RHSFurther.
Context `{sd : string_defs} {engine_state : Type} {C : collaborators engine_state}.

(** X12.  On a zone without the temperature property or without the time
    property the right-hand side fails with the missing property, whatever
    the functions registered in the zone are: none of them is called. *)
Theorem rhs_missing_property
    (fns : zone_functions engine_state) (pView : NetView)
    (x0 dxdt : state_type) (t : R) (z : zone_t engine_state) :
  properties z !! (s_T9, None) = None \/ properties z !! (s_TIME, None) = None ->
  exists name, name ∈ [s_T9; s_TIME]
    /\ entropy_generation_rhs fns pView x0 dxdt t z = Throw (property_not_found name).
Proof.
  intros H. unfold entropy_generation_rhs, getProperty.
  destruct (properties z !! (s_T9, None)) as [t9 |] eqn:Et9; simpl.
  - destruct H as [H | H]; [discriminate H|]. rewrite H. simpl.
    exists s_TIME. split; [rewrite !elem_of_cons; auto | reflexivity].
  - exists s_T9. split; [rewrite !elem_of_cons; auto | reflexivity].
Qed.

(** X13.  The derivative a call of the right-hand side returns is
    [{x[1], a, sdot}]: the velocity, what the acceleration function
    returned for [x] and the time of the call, and what the entropy
    generation function returned, called on the zone the acceleration
    function left. *)
Theorem rhs_derivative
    (fns : zone_functions engine_state) (pView : NetView)
    (x0 dxdt : state_type) (t : R) (z : zone_t engine_state)
    (dxdt' : state_type) (z' : zone_t engine_state) :
  length dxdt = 3%nat ->
  entropy_generation_rhs fns pView x0 dxdt t z = Ok (dxdt', z') ->
  exists (a sdot : R) (z1 z2 z3 : zone_t engine_state),
    acceleration_func fns x0 t z1 = Ok (a, z2)
    /\ entropy_generation_func fns pView z2 = Ok (sdot, z3)
    /\ dxdt' = [get x0 1; a; sdot].
Proof.
  intros Hlen Hrhs. unfold entropy_generation_rhs in Hrhs.
  bind_inv Hrhs as d_t9_old Eold.
  bind_inv Hrhs as time Etime.
  bind_inv Hrhs as rho Erho.
  bind_inv Hrhs as [t9 z1] Et9.
  bind_inv Hrhs as z2 Eevolve.
  bind_inv Hrhs as [a z3] Eacc.
  bind_inv Hrhs as [sdot z4] Esdot.
  bind_inv Hrhs as z5 Eobs.
  injection Hrhs as <- <-.
  exists a, sdot, z2, z3, z4.
  split; [exact Eacc|]. split; [exact Esdot|].
  destruct dxdt as [| d0 [| d1 [| d2 [| d3 l]]]]; try discriminate Hlen.
  reflexivity.
Qed.

(** X14.  The right-hand side never reads the derivative vector it is
    given: with two vectors of three components, whatever they hold, it
    does the same and returns the same. *)
Theorem rhs_ignores_buffer
    (fns : zone_functions engine_state) (pView : NetView)
    (x0 dxdt1 dxdt2 : state_type) (t : R) (z : zone_t engine_state) :
  length dxdt1 = 3%nat -> length dxdt2 = 3%nat ->
  entropy_generation_rhs fns pView x0 dxdt1 t z
  = entropy_generation_rhs fns pView x0 dxdt2 t z.
Proof.
  intros H1 H2.
  destruct dxdt1 as [| a0 [| a1 [| a2 [| a3 l1]]]]; try discriminate H1.
  destruct dxdt2 as [| b0 [| b1 [| b2 [| b3 l2]]]]; try discriminate H2.
  unfold entropy_generation_rhs.
  destruct (getProperty s_T9 z) as [t9_old | e]; simpl; [| reflexivity].
  destruct (getProperty s_TIME z) as [time | e]; simpl; [| reflexivity].
  destruct (rho_func fns x0) as [rho | e]; simpl; [| reflexivity].
  destruct (t9_func fns pView _) as [[t9 z1] | e]; simpl; [| reflexivity].
  destruct (evolve_func fns pView _ _) as [z2 | e]; simpl; [| reflexivity].
  destruct (acceleration_func fns x0 t z2) as [[a z3] | e]; simpl; [| reflexivity].
  destruct (entropy_generation_func fns pView z3) as [[sdot z4] | e]; simpl;
    reflexivity.
Qed.
End RHSFurther.

(** On a zone without properties the small engine's right-hand side
    fails. *)
Lemma rhs_missing_property_witness :
  exists name, name ∈ ["t9"; "time"]
    /\ @entropy_generation_rhs nnt_strings unit (toy_collaborators (fun dt => dt))
         (@toy_functions nnt_strings (fun dt => dt) (toy_params 10)) tt
         [1; 3; 7] [0; 0; 0] 1
         {| properties := ∅; abundances := []; abundance_changes := []; engine := tt |}
       = Throw (property_not_found name).
Proof.
  apply (@rhs_missing_property nnt_strings unit (toy_collaborators (fun dt => dt))).
  left. reflexivity.
Defined.

(** The derivative of the small engine at [x = {1, 3, 7}]. *)
Lemma rhs_derivative_witness :
  exists (a sdot : R) (z1 z2 z3 : zone_t unit),
    acceleration_func (@toy_functions nnt_strings (fun dt => dt) (toy_params 10))
      [1; 3; 7] 1 z1 = Ok (a, z2)
    /\ entropy_generation_func (@toy_functions nnt_strings (fun dt => dt) (toy_params 10))
         tt z2 = Ok (sdot, z3)
    /\ [3; 3 / 3; 0] = [get [1; 3; 7] 1; a; sdot].
Proof.
  exact (@rhs_derivative nnt_strings unit (toy_collaborators (fun dt => dt))
           (@toy_functions nnt_strings (fun dt => dt) (toy_params 10)) tt
           [1; 3; 7] [0; 0; 0] 1 toy_zone _ _ eq_refl toy_rhs_value).
Defined.

(** The small engine with two different derivative vectors. *)
Lemma rhs_ignores_buffer_witness :
  @entropy_generation_rhs nnt_strings unit (toy_collaborators (fun dt => dt))
    (@toy_functions nnt_strings (fun dt => dt) (toy_params 10)) tt
    [1; 3; 7] [0; 0; 0] 1 toy_zone
  = @entropy_generation_rhs nnt_strings unit (toy_collaborators (fun dt => dt))
      (@toy_functions nnt_strings (fun dt => dt) (toy_params 10)) tt
      [1; 3; 7] [4; 5; 6] 1 toy_zone.
Proof.
  apply (@rhs_ignores_buffer nnt_strings unit (toy_collaborators (fun dt => dt)));
    reflexivity.
Defined.

(** ** The step controller, further *)

Lemma candidates_at_nonneg (x1 x0 : state_type) (dt : R) (l : list nat) (c : R) :
  0 < dt -> c ∈ candidates_at x1 x0 dt l -> 0 <= c.
Proof.
  intros Hdt. induction l as [| i l IH]; simpl.
  - intros Hc. apply elem_of_nil in Hc. destruct Hc.
  - rewrite elem_of_app. intros [Hc | Hc]; [| exact (IH Hc)].
    destruct (Rgt_dec (Rabs (get x1 i)) (get x_lim i));
      [| apply elem_of_nil in Hc; destruct Hc].
    destruct (Req_dec_T (relative_change x1 x0 i) 0) as [Hz | Hnz];
      [apply elem_of_nil in Hc; destruct Hc|].
    apply list_elem_of_singleton in Hc. subst c.
    pose proof (relative_change_nonneg x1 x0 i).
    apply Rlt_le. apply Rdiv_lt_0_compat; [unfold D_X_REG_T; lra | lra].
Qed.


Lemma minimum_nonneg (top : R) (l : list R) :
  0 <= top -> (forall c, c ∈ l -> 0 <= c) -> 0 <= minimum top l.
Proof.
  intros Htop. induction l as [| a l IH]; intros Hl; simpl; [exact Htop|].
  apply Rmin_glb.
  - apply Hl. left.
  - apply IH. intros c Hc. apply Hl. right. exact Hc.
Qed.

(** X15.  The loop never proposes a negative step: after a positive step,
    with a recommendation of the engine that is not negative and before
    the end time, the step size proposed is not negative, whatever the
    state has done. *)
Theorem update_timestep_nonneg (x1 x0 : state_type) (t dt engine_dt tend : R) :
  0 < dt -> 0 <= engine_dt -> t < tend ->
  0 <= update_timestep x1 x0 t dt engine_dt tend.
Proof.
  intros Hdt Hengine Ht.
  rewrite update_timestep_clamp.
  assert (0 <= Rmin (minimum 1e99 (candidate_steps x1 x0 dt)) engine_dt) as Hm.
  { apply Rmin_glb; [| exact Hengine].
    apply minimum_nonneg; [lra|].
    intros c Hc. exact (candidates_at_nonneg x1 x0 dt _ c Hdt Hc). }
  destruct (Rgt_dec _ tend); [lra | exact Hm].
Qed.

Lemma update_timestep_nonneg_witness :
  0 <= update_timestep [2; 1; 0] [1; 1; 0] 1 1 3 10.
Proof. apply update_timestep_nonneg; lra. Defined.


(** ** The loop, further *)

Lemma getProperty_updateProperty_twice {engine_state : Type}
    (name name' : string) (v v' : R) (z : zone_t engine_state) :
  exists w, getProperty name (updateProperty name' v' (updateProperty name v z)) = Ok w.
Proof.
  unfold getProperty, updateProperty; simpl.
  destruct (decide (name' = name)) as [-> | Hne].
  - rewrite lookup_insert_eq. eauto.
  - rewrite lookup_insert_ne by congruence. rewrite lookup_insert_eq. eauto.
Qed.

Section DriverFurther.
Context `{sd : string_defs} {engine_state : Type} {C : collaborators engine_state}.
Context (fns : zone_functions engine_state) (param_map : param_map_t)
        (p_view : option NetView) (output_xml : string).

#[local] Abbreviation pass := (iteration fns param_map p_view output_xml).
#[local] Abbreviation passes := (stepping fns param_map p_view output_xml).

(** X17.  The checkpoints of the loop.  A pass that completes has
    incremented the step counter; the zone is relabelled with the next
    checkpoint number and added to the output network exactly when the
    step counter before the pass is a multiple of [steps] or the time
    reached is at least [tend]; otherwise the checkpoint number and the
    output network are unchanged. *)
Theorem iteration_checkpoint (s s' : driver_state engine_state) (tend : R) (steps : N) :
  at_key param_map s_TEND = any_double tend ->
  at_key param_map s_STEPS = any_size_t steps ->
  pass s = Ok s' ->
  steps <> 0%N
  /\ i_step s' = size_t_succ (i_step s)
  /\ (((i_step s mod steps)%N = 0%N \/ tend <= d_t s + d_dt s ->
       k s' = (k s + 1)%Z
       /\ exists z, write_xml (p_my_output s) (Libnucnet__relabelZone (k s + 1) z)
                    = Ok (p_my_output s'))
      /\ ((i_step s mod steps)%N <> 0%N -> d_t s + d_dt s < tend ->
          k s' = k s /\ p_my_output s' = p_my_output s)).
Proof.
  intros Etend Esteps Hit. unfold iteration in Hit.
  bind_inv Hit as [view z0] Eview.
  bind_inv Hit as [[st x1] z1] Estep.
  bind_inv Hit as rho Erho.
  bind_inv Hit as guess Eguess.
  bind_inv Hit as [view1 z2] Eview1.
  bind_inv Hit as [t9 z3] Et9.
  bind_inv Hit as guess' Eguess'.
  bind_inv Hit as [dt9dt t9old] Eold.
  bind_inv Hit as [view2 z4] Eview2.
  bind_inv Hit as z5 Eevolve.
  bind_inv Hit as observe Eobserve.
  bind_inv Hit as steps' Esteps'.
  bind_inv Hit as r Emod.
  bind_inv Hit as dump Edump.
  bind_inv Hit as [[[k1 z6] out] fl] Eout.
  bind_inv Hit as z7 Elimit.
  bind_inv Hit as tend' Etend'.
  injection Hit as <-. simpl.
  rewrite Esteps in Esteps'. injection Esteps' as <-.
  rewrite Etend in Etend'. injection Etend' as <-.
  rewrite Etend in Edump. simpl in Edump.
  unfold size_t_mod in Emod.
  destruct (decide (steps = 0%N)) as [Hz | Hnz]; [discriminate Emod|].
  injection Emod as <-.
  split; [exact Hnz|]. split; [reflexivity|].
  assert (dump = true <-> ((i_step s mod steps)%N = 0%N \/ tend <= d_t s + d_dt s))
    as Hdump.
  { destruct (decide ((i_step s mod steps)%N = 0%N)) as [Hr | Hr].
    - injection Edump as <-. tauto.
    - destruct (Rge_dec (d_t s + d_dt s) tend) as [Hge | Hlt];
        injection Edump as <-.
      + split; [intros _; right; lra | reflexivity].
      + split; [intros Hd; discriminate Hd
               | intros [Hz | Hge]; [contradiction | lra]]. }
  split.
  - intros Hyes. apply Hdump in Hyes. subst dump.
    bind_inv Eout as u Eprint. bind_inv Eout as out' Ewrite.
    injection Eout as <- <- <- <-.
    split; [reflexivity|]. eexists. exact Ewrite.
  - intros Hr Hlt. destruct dump.
    + exfalso. destruct (proj1 Hdump eq_refl); [contradiction | lra].
    + injection Eout as <- <- <- <-. split; reflexivity.
Qed.

(** X18.  The guess of the temperature.  With [t9_guess] set to [yes]
    the root finder is started from the linear extrapolation
    [d_t9_old + d_dt9dt * d_dt] of the temperature (the zone's views being
    made without a change of its properties), the temperature it returns
    becomes [d_t9_old], and [d_dt9dt] becomes the difference quotient over
    the step; with any other value both variables keep the values they had
    before the loop. *)
Theorem iteration_t9_guess (s s' : driver_state engine_state) (guess : string) :
  (forall label z view z', getNetView label z = Ok (view, z') ->
     properties z' = properties z) ->
  at_key param_map S_T9_GUESS = any_string guess ->
  pass s = Ok s' ->
  (guess = "yes" ->
     (exists (view : NetView) (z z' : zone_t engine_state) (factor : R),
        at_key param_map S_ROOT_FACTOR = any_double factor
        /\ compute_1d_root view (d_t9_old s + d_dt9dt s * d_dt s) factor z
           = Ok (d_t9_old s', z'))
     /\ d_dt9dt s' = (d_t9_old s' - d_t9_old s) / d_dt s)
  /\ (guess <> "yes" -> d_t9_old s' = d_t9_old s /\ d_dt9dt s' = d_dt9dt s).
Proof.
  intros Hview Eg Hit. unfold iteration in Hit.
  bind_inv Hit as [view z0] Eview.
  bind_inv Hit as [[st x1] z1] Estep.
  bind_inv Hit as rho Erho.
  bind_inv Hit as guess0 Eguess.
  bind_inv Hit as [view1 z2] Eview1.
  bind_inv Hit as [t9 z3] Et9.
  bind_inv Hit as guess' Eguess'.
  bind_inv Hit as [dt9dt t9old] Eold.
  bind_inv Hit as [view2 z4] Eview2.
  bind_inv Hit as z5 Eevolve.
  bind_inv Hit as observe Eobserve.
  bind_inv Hit as steps Esteps.
  bind_inv Hit as r Emod.
  bind_inv Hit as dump Edump.
  bind_inv Hit as [[[k1 z6] out] fl] Eout.
  bind_inv Hit as z7 Elimit.
  bind_inv Hit as tend Etend.
  injection Hit as <-. simpl.
  rewrite Eg in Eguess, Eguess'. simpl in Eguess, Eguess'.
  injection Eguess as <-. injection Eguess' as <-.
  split.
  - intros ->.
    rewrite (decide_True (P := "yes" = "yes")) in Eview1 by reflexivity.
    rewrite (decide_True (P := "yes" = "yes")) in Eold by reflexivity.
    rewrite getProperty_updateProperty in Eold. simpl in Eold.
    injection Eold as <- <-.
    split; [| reflexivity].
    apply Hview in Eview1 as Hprops.
    unfold t9_function in Et9.
    bind_inv Et9 as [g factor] Eargs.
    assert (getProperty s_T9 z2 = Ok g
            /\ any_cast_double (at_key param_map S_ROOT_FACTOR) = Ok factor)
      as [Eg9 Efactor].
    { destruct arguments_right_to_left.
      - bind_inv Eargs as factor' Ef. bind_inv Eargs as g' Egp.
        injection Eargs as <- <-. split; assumption.
      - bind_inv Eargs as g' Egp. bind_inv Eargs as factor' Ef.
        injection Eargs as <- <-. split; assumption. }
    apply any_cast_double_Ok in Efactor.
    unfold getProperty in Eg9. rewrite Hprops in Eg9. simpl in Eg9.
    rewrite lookup_insert_eq in Eg9. injection Eg9 as <-.
    exists view1, z2, z3, factor. split; [exact Efactor | exact Et9].
  - intros Hno.
    rewrite (decide_False (P := guess = "yes")) in Eold by exact Hno.
    injection Eold as <- <-. split; reflexivity.
Qed.

(** X19.  With [steps = 0] no pass through the loop completes: the
    remainder of the step counter by [steps] is a division by zero.  A run
    that enters the loop then never leaves it in the regular way. *)
Theorem iteration_steps_zero (s : driver_state engine_state) :
  at_key param_map s_STEPS = any_size_t 0 ->
  (forall s', pass s <> Ok s')
  /\ forall fuel tend s',
       at_key param_map s_TEND = any_double tend -> d_t s < tend ->
       passes fuel s <> Finished s'.
Proof.
  intros Esteps.
  assert (forall s', pass s <> Ok s') as Hno.
  { intros s' Hit. unfold iteration in Hit.
    bind_inv Hit as [view z0] Eview.
    bind_inv Hit as [[st x1] z1] Estep.
    bind_inv Hit as rho Erho.
    bind_inv Hit as guess Eguess.
    bind_inv Hit as [view1 z2] Eview1.
    bind_inv Hit as [t9 z3] Et9.
    bind_inv Hit as guess' Eguess'.
    bind_inv Hit as [dt9dt t9old] Eold.
    bind_inv Hit as [view2 z4] Eview2.
    bind_inv Hit as z5 Eevolve.
    bind_inv Hit as observe Eobserve.
    bind_inv Hit as steps' Esteps'.
    bind_inv Hit as r Emod.
    rewrite Esteps in Esteps'. injection Esteps' as <-.
    discriminate Emod. }
  split; [exact Hno|].
  intros fuel tend s' Etend Hlt Hfin.
  rewrite (stepping_unfold fns param_map p_view output_xml tend fuel s Etend) in Hfin.
  destruct (Rlt_dec (d_t s) tend); [| contradiction].
  destruct fuel as [| fuel]; [discriminate Hfin|].
  destruct (pass s) as [s1 | e] eqn:Hit; [| discriminate Hfin].
  exact (Hno s1 eq_refl).
Qed.

(** X20.  A run that enters the loop at or after the end time makes no
    pass: the state is left as it is and the output file is written, once,
    with the output network as it stands. *)
Theorem evolve_and_write_no_pass
    (s : driver_state engine_state) (tend : R) (fuel : nat) :
  at_key param_map s_TEND = any_double tend ->
  tend <= d_t s ->
  evolve_and_write fns param_map p_view output_xml fuel s
  = Finished (Libnucnet__writeToXmlFile output_xml s)
  /\ files (Libnucnet__writeToXmlFile output_xml s)
     = files s ++ [(output_xml, p_my_output s)].
Proof.
  intros Etend Hge. unfold evolve_and_write.
  rewrite (stepping_done fns param_map p_view output_xml tend fuel s Etend) by lra.
  split; reflexivity.
Qed.

(** X21.  [main], from "Initialize the system" on, ends in
    [boost::bad_any_cast] for every parameter map, zone and set of
    registered functions: the reads before [initialize_state] either fail
    with this exception or succeed (the temperature property is read after
    it has been set), and [initialize_state] throws it.  The loop is not
    entered and no output file is written. *)
Theorem main_bad_any_cast (fuel : nat) (z : zone_t engine_state)
    (stepper0 : stepper_t) (p_my_output0 : output_t) :
  main fns param_map p_view output_xml fuel z stepper0 p_my_output0
  = Aborted bad_any_cast.
Proof.
  unfold main, initialize.
  destruct (any_cast_double (at_key param_map s_T9_0)) as [t9_0 | e] eqn:E1; simpl;
    [| apply any_cast_double_Throw in E1; subst e; reflexivity].
  destruct (any_cast_double (at_key param_map s_RHO_0)) as [rho_0 | e] eqn:E2; simpl;
    [| apply any_cast_double_Throw in E2; subst e; reflexivity].
  destruct (getProperty_updateProperty_twice s_T9 s_RHO t9_0 rho_0 z) as [t9 ->].
  simpl.
  destruct (any_cast_double (at_key param_map s_DTIME)) as [dt | e] eqn:E3; simpl;
    [| apply any_cast_double_Throw in E3; subst e; reflexivity].
  destruct (any_cast_double (at_key param_map s_TIME)) as [t | e] eqn:E4; simpl;
    [| apply any_cast_double_Throw in E4; subst e; reflexivity].
  rewrite initialize_state_bad_any_cast. reflexivity.
Qed.
End DriverFurther.

(** The first pass of the small engine, from the step counter 0: the
    zone is written to the output network as checkpoint 1. *)
Lemma iteration_checkpoint_witness :
  exists s' : @driver_state unit (toy_collaborators (fun dt => dt)),
    toy_iteration (fun dt => dt) 10 (toy_state _ 0 1 [1; 0; 0]) = Ok s'
    /\ i_step s' = size_t_succ 0
    /\ k s' = (0 + 1)%Z.
Proof.
  destruct (toy_iteration_total (fun dt => dt) 10
              (toy_state _ 0 1 [1; 0; 0]) 5 eq_refl)
    as (s' & Hit & _).
  exists s'. split; [exact Hit|].
  destruct (@iteration_checkpoint nnt_strings unit (toy_collaborators (fun dt => dt))
              (@toy_functions nnt_strings (fun dt => dt) (toy_params 10))
              (toy_params 10) None "output.xml"
              (toy_state _ 0 1 [1; 0; 0]) s' 10 20%N (toy_tend_key 10) eq_refl Hit)
    as (_ & Hstep & Hdump & _).
  split; [exact Hstep|].
  apply Hdump. left. reflexivity.
Defined.

(** The small engine with [steps = 0]. *)
Lemma iteration_steps_zero_witness :
  (forall s',
     @iteration nnt_strings unit (toy_collaborators (fun dt => dt))
       (@toy_functions nnt_strings (fun dt => dt) (toy_params 10))
       (<["steps" := any_size_t 0]> (toy_params 10)) None "output.xml"
       (toy_state _ 0 1 [1; 0; 0]) <> Ok s')
  /\ forall fuel tend s',
       at_key (<["steps" := any_size_t 0]> (toy_params 10)) "tend" = any_double tend ->
       d_t (toy_state (fun dt => dt) 0 1 [1; 0; 0]) < tend ->
       @stepping nnt_strings unit (toy_collaborators (fun dt => dt))
         (@toy_functions nnt_strings (fun dt => dt) (toy_params 10))
         (<["steps" := any_size_t 0]> (toy_params 10)) None "output.xml"
         fuel (toy_state _ 0 1 [1; 0; 0]) <> Finished s'.
Proof.
  apply (@iteration_steps_zero nnt_strings unit (toy_collaborators (fun dt => dt))).
  reflexivity.
Defined.

(** The small engine entered at [t = 10 = tend]. *)
Lemma evolve_and_write_no_pass_witness :
  toy_evolve_and_write (fun dt => dt) 10 0 (toy_state _ 10 1 [1; 0; 0])
  = Finished (Libnucnet__writeToXmlFile "output.xml" (toy_state _ 10 1 [1; 0; 0]))
  /\ files (Libnucnet__writeToXmlFile "output.xml"
              (toy_state (fun dt => dt) 10 1 [1; 0; 0]))
     = [] ++ [("output.xml", 0%nat)].
Proof.
  apply (@evolve_and_write_no_pass nnt_strings unit (toy_collaborators (fun dt => dt))
           (@toy_functions nnt_strings (fun dt => dt) (toy_params 10))
           (toy_params 10) None "output.xml"
           (toy_state _ 10 1 [1; 0; 0]) 10 0%nat (toy_tend_key 10)).
  simpl. lra.
Defined.

(** The first pass of the small engine: the root finder is started from
    [5 + 0 * 1]. *)
Lemma iteration_t9_guess_witness :
  exists s' : @driver_state unit (toy_collaborators (fun dt => dt)),
    toy_iteration (fun dt => dt) 10 (toy_state _ 0 1 [1; 0; 0]) = Ok s'
    /\ (exists (view : unit) (z z' : zone_t unit) (factor : R),
          at_key (toy_params 10) "root_factor" = any_double factor
          /\ @compute_1d_root unit (toy_collaborators (fun dt => dt))
               view (5 + 0 * 1) factor z = Ok (d_t9_old s', z'))
    /\ d_dt9dt s' = (d_t9_old s' - 5) / 1.
Proof.
  destruct (toy_iteration_total (fun dt => dt) 10
              (toy_state _ 0 1 [1; 0; 0]) 5 eq_refl)
    as (s' & Hit & _).
  exists s'. split; [exact Hit|].
  apply (@iteration_t9_guess nnt_strings unit (toy_collaborators (fun dt => dt))
           (@toy_functions nnt_strings (fun dt => dt) (toy_params 10))
           (toy_params 10) None "output.xml"
           (toy_state _ 0 1 [1; 0; 0]) s' "yes").
  - intros label z view z' E. injection E as _ <-. reflexivity.
  - reflexivity.
  - exact Hit.
  - reflexivity.
Defined.
